(** * fetch_pubmed_fulltext: a shallow embedding of [PubMedFetcher]

    The development follows [src/fetch_pubmed_fulltext.py] method by method.

    - Python [str] values are modelled by [string]; a character is a code
      point in the range 0..255, classified the way CPython's Unicode
      tables classify that range ([isspace], [isalnum], line boundaries).
    - A value that may be [None] is an [option]; truthiness ([if x:]) is the
      boolean [truthy] / [truthy_opt].
    - [xml.etree.ElementTree] elements and the BeautifulSoup tree are
      inductive trees; the two parsers, the HTTP session, the
      [pdftotext] executable, the opening of an output file and
      [time.sleep] are external collaborators, gathered in the class
      [Externals]: each of them may raise.
    - Methods that touch the network or the file system are written in a
      state-and-exception monad over [World]; [print] calls are not
      modelled. *)

From Stdlib Require Import String Ascii List Bool Arith Lia ZArith.
Import ListNotations.
Set Warnings "-register-all".
Local Open Scope list_scope.
Local Open Scope string_scope.

(* ================================================================= *)
(** ** Characters and strings *)

Module PyStr.

Definition code (c : ascii) : nat := nat_of_ascii c.

Definition in_range (lo hi n : nat) : bool := Nat.leb lo n && Nat.leb n hi.

(** [str.isspace] on one character, which is also what [\s] matches in a
    [str] pattern: TAB..CR, FS..US, SPACE, NEL and NBSP. *)
Definition isspace (c : ascii) : bool :=
  let n := code c in
  in_range 9 13 n || in_range 28 32 n || Nat.eqb n 133 || Nat.eqb n 160.

(** [str.isalnum] on one character (letters, decimal digits, and the
    digit-like and numeric characters of Latin-1). *)
Definition isalnum (c : ascii) : bool :=
  let n := code c in
  in_range 48 57 n || in_range 65 90 n || in_range 97 122 n
  || Nat.eqb n 170 || Nat.eqb n 178 || Nat.eqb n 179 || Nat.eqb n 181 || Nat.eqb n 185
  || Nat.eqb n 186 || in_range 188 190 n
  || in_range 192 214 n || in_range 216 246 n || in_range 248 255 n.

Definition underscore : ascii := "_"%char.
Definition hyphen : ascii := "-"%char.
Definition LF : ascii := "010"%char.
Definition CR : ascii := "013"%char.

(** What [\w] matches in a [str] pattern. *)
Definition is_word (c : ascii) : bool := isalnum c || Ascii.eqb c underscore.

(** The line boundaries of [str.splitlines]. *)
Definition is_linebreak (c : ascii) : bool :=
  let n := code c in
  in_range 10 13 n || in_range 28 30 n || Nat.eqb n 133.

Definition nl : string := String LF EmptyString.

(** [if s:] for a string. *)
Definition truthy (s : string) : bool :=
  match s with EmptyString => false | String _ _ => true end.

(** [if x:] for a value that is a string or [None]. *)
Definition truthy_opt (x : option string) : bool :=
  match x with Some s => truthy s | None => false end.

(** How an f-string renders a value that is a string or [None]. *)
Definition fmt (x : option string) : string :=
  match x with Some s => s | None => "None" end.

Fixpoint lstrip (s : string) : string :=
  match s with
  | EmptyString => EmptyString
  | String c r => if isspace c then lstrip r else s
  end.

Fixpoint rstrip (s : string) : string :=
  match s with
  | EmptyString => EmptyString
  | String c r =>
      match rstrip r with
      | EmptyString => if isspace c then EmptyString else String c EmptyString
      | r' => String c r'
      end
  end.

(** [s.strip()] *)
Definition strip (s : string) : string := rstrip (lstrip s).

(** [sep.join(parts)] *)
Definition join (sep : string) (parts : list string) : string :=
  String.concat sep parts.

(** [s * n] *)
Fixpoint str_mul (s : string) (n : nat) : string :=
  match n with
  | O => EmptyString
  | S k => s ++ str_mul s k
  end.

(** [s[:n]] *)
Fixpoint slice_to (n : nat) (s : string) : string :=
  match n, s with
  | S k, String c r => String c (slice_to k r)
  | _, _ => EmptyString
  end.

(** [re.sub('[^...]', '', s)]: drop every character outside the class. *)
Fixpoint re_delete_outside (keep : ascii -> bool) (s : string) : string :=
  match s with
  | EmptyString => EmptyString
  | String c r =>
      if keep c then String c (re_delete_outside keep r)
      else re_delete_outside keep r
  end.

(** [re.sub('C+', rep, s)] for a character class [C]: every maximal run of
    class characters becomes one [rep].  [in_run] tells that the previous
    character already belonged to the run being replaced. *)
Fixpoint re_sub_runs_from (cls : ascii -> bool) (rep : string)
         (in_run : bool) (s : string) : string :=
  match s with
  | EmptyString => EmptyString
  | String c r =>
      if cls c then
        if in_run then re_sub_runs_from cls rep true r
        else rep ++ re_sub_runs_from cls rep true r
      else String c (re_sub_runs_from cls rep false r)
  end.

Definition re_sub_runs (cls : ascii -> bool) (rep : string) (s : string) : string :=
  re_sub_runs_from cls rep false s.

(** [re.sub(r'\n\n+', '\n\n', s)]: a run of two or more line feeds becomes
    exactly two; [seen] counts the line feeds of the current run so far. *)
Fixpoint re_collapse_blank_from (seen : nat) (s : string) : string :=
  match s with
  | EmptyString => EmptyString
  | String c r =>
      if Ascii.eqb c LF then
        if Nat.ltb seen 2 then String c (re_collapse_blank_from (S seen) r)
        else re_collapse_blank_from seen r
      else String c (re_collapse_blank_from 0 r)
  end.

Definition re_collapse_blank (s : string) : string := re_collapse_blank_from 0 s.

(** [s.splitlines()]: [cur] is the line being read, [after_cr] tells that
    the previous character was a carriage return, so that a line feed now
    belongs to the same boundary. *)
Fixpoint splitlines_from (after_cr : bool) (cur : string) (s : string)
  : list string :=
  match s with
  | EmptyString => if truthy cur then [cur] else []
  | String c r =>
      if after_cr && Ascii.eqb c LF then splitlines_from false cur r
      else if is_linebreak c then
        cur :: splitlines_from (Ascii.eqb c CR) EmptyString r
      else splitlines_from false (cur ++ String c EmptyString) r
  end.

Definition splitlines (s : string) : list string :=
  splitlines_from false EmptyString s.

(** [s.replace('PMC', '')] *)
Fixpoint remove_PMC (s : string) : string :=
  match s with
  | String c1 ((String c2 (String c3 r)) as r1) =>
      if Ascii.eqb c1 "P" && Ascii.eqb c2 "M" && Ascii.eqb c3 "C"
      then remove_PMC r
      else String c1 (remove_PMC r1)
  | String c1 r1 => String c1 (remove_PMC r1)
  | EmptyString => EmptyString
  end.

Definition forallb_str (p : ascii -> bool) (s : string) : bool :=
  forallb p (list_ascii_of_string s).

End PyStr.
Import PyStr.

(* ================================================================= *)
(** ** The element tree of [xml.etree.ElementTree] *)

Inductive Element : Type :=
  mkElement (tag : string) (attrib : list (string * string))
            (text tail : option string) (children : list Element).

Module ET.

Definition tag (e : Element) : string :=
  match e with mkElement t _ _ _ _ => t end.
Definition attrib (e : Element) : list (string * string) :=
  match e with mkElement _ a _ _ _ => a end.
Definition text (e : Element) : option string :=
  match e with mkElement _ _ t _ _ => t end.
Definition tail (e : Element) : option string :=
  match e with mkElement _ _ _ t _ => t end.
Definition children (e : Element) : list Element :=
  match e with mkElement _ _ _ _ cs => cs end.

(** [e.get(key)] *)
Fixpoint lookup (key : string) (a : list (string * string)) : option string :=
  match a with
  | [] => None
  | (k, v) :: r => if String.eqb k key then Some v else lookup key r
  end.

Definition get (e : Element) (key : string) : option string :=
  lookup key (attrib e).

(** [e.get(key, default)] *)
Definition get_default (e : Element) (key default : string) : string :=
  match get e key with Some v => v | None => default end.

(** [e.iter()]: the element, then its descendants, in document order. *)
Fixpoint iter (e : Element) : list Element :=
  match e with
  | mkElement _ _ _ _ cs => e :: flat_map iter cs
  end.

Definition descendants (e : Element) : list Element :=
  flat_map iter (children e).

Definition has_tag (name : string) (e : Element) : bool :=
  String.eqb (tag e) name.

(** [e.findall('.//name')] *)
Definition findall_desc (name : string) (e : Element) : list Element :=
  filter (has_tag name) (descendants e).

(** [e.find('.//name')] *)
Definition find_desc (name : string) (e : Element) : option Element :=
  hd_error (findall_desc name e).

(** [e.findall('name')] *)
Definition findall (name : string) (e : Element) : list Element :=
  filter (has_tag name) (children e).

(** [e.find('name')] *)
Definition find (name : string) (e : Element) : option Element :=
  hd_error (findall name e).

(** What [if t: yield t] contributes. *)
Definition fragment (t : option string) : list string :=
  match t with
  | Some s => if truthy s then [s] else []
  | None => []
  end.

(** [e.itertext()]: the element's text, then for every child its own
    fragments followed by its tail. *)
Fixpoint itertext (e : Element) : list string :=
  match e with
  | mkElement _ _ t _ cs =>
      (fragment t ++ flat_map (fun c => itertext c ++ fragment (tail c)) cs)%list
  end.

End ET.

(* ================================================================= *)
(** ** The tree of BeautifulSoup *)

(** A node is a text string or a tag; of a tag's attributes the selectors
    of the program only look at [class] (a list of tokens) and [id]. *)
Inductive Node : Type :=
  | NText (s : string)
  | NTag (name : string) (classes : list string) (id : option string)
         (contents : list Node).

Definition Soup : Type := list Node.

(* ================================================================= *)
(** ** The outside world *)

Record Request := mkRequest {
  req_url : string;
  req_params : list (string * string)
}.

Record Response := mkResponse {
  status_code : Z;
  resp_text : string
}.

(** How a run of the [pdftotext] executable ends: it exits with a return
    code, having written [tool_output] to the text file, or
    [subprocess.run] raises (the executable is missing, or the 60 s
    timeout expires). *)
Inductive ToolRun : Type :=
  | Exited (returncode : Z) (tool_output : string)
  | RunRaises.

(** The exceptions that the modelled calls raise. *)
Inductive exn : Type :=
  | TypeError
  | ValueError
  | OverflowError
  | ParseError
  | RequestException
  | HTTPError
  | OSError
  | SubprocessError.

(** A file is a transient file of [tempfile], named by its serial number
    and suffix, or a document in the output directory, named by the path
    that [save_article] appends to that directory. *)
Inductive path : Type :=
  | TmpFile (serial : nat) (suffix : string)
  | OutFile (filename : string).

(** The [float] that the driver passes to [time.sleep]: the finite value
    [mantissa * 2 ^ exponent], not-a-number, or an infinity. *)
Inductive Delay : Type :=
  | Finite (mantissa exponent : Z)
  | NotANumber
  | Infinite (negative : bool).

(** The collaborators that the program calls and does not define.  [None]
    stands for a raised exception in the first three, and for a call that
    goes through in the last two: [open_error p] is what
    [open(p, 'w')] raises, if it raises (a directory that does not exist, a
    name that the file system refuses), and [sleep_error d] is what
    [time.sleep(d)] raises, if it raises (a negative delay, not-a-number,
    a delay too large). *)
Class Externals := {
  fromstring : string -> option Element;
  BeautifulSoup : string -> option Soup;
  session_get : list Request -> Request -> option Response;
  pdftotext : string -> ToolRun;
  open_error : path -> option exn;
  sleep_error : Delay -> option exn
}.

(* ================================================================= *)
(** ** Metadata parser *)

Record Metadata := mkMetadata {
  title : string;
  abstract : string;
  authors : list (option string);
  journal : option string;
  year : option string;
  doi : option string;
  pmc_id : option string
}.

(** The body of the loop over [AbstractText] elements. *)
Definition abstract_part (abstract_text : Element) : string :=
  let label := ET.get_default abstract_text "Label" "" in
  let text := join "" (ET.itertext abstract_text) in
  if truthy label then label ++ ": " ++ text else text.

(** The body of the loop over [Author] elements: the name to append, if
    any. *)
Definition author_name (author : Element) : list (option string) :=
  match ET.find "LastName" author with
  | Some last_name =>
      let name := ET.text last_name in
      match ET.find "ForeName" author with
      | Some fore_name => [Some (fmt (ET.text fore_name) ++ " " ++ fmt name)]
      | None => [name]
      end
  | None => []
  end.

(** The body of the loop over [ArticleId] elements, on the pair
    [(doi, pmc_id)]. *)
Definition article_id_step (acc : option string * option string)
           (article_id : Element) : option string * option string :=
  let id_type := ET.get article_id "IdType" in
  match id_type with
  | Some t =>
      if String.eqb t "doi" then (ET.text article_id, snd acc)
      else if String.eqb t "pmc" then (fst acc, ET.text article_id)
      else acc
  | None => acc
  end.

(** [parse_metadata] once [ET.fromstring] has returned [root]. *)
Definition parse_metadata_root (root : Element) : option Metadata :=
  match ET.find_desc "Article" root with
  | None => None
  | Some article =>
      let title :=
        match ET.find_desc "ArticleTitle" article with
        | Some title_elem => join "" (ET.itertext title_elem)
        | None => "Unknown"
        end in
      let abstract_parts :=
        match ET.find_desc "Abstract" article with
        | Some abstract_elem =>
            map abstract_part (ET.findall_desc "AbstractText" abstract_elem)
        | None => []
        end in
      let abstract :=
        match abstract_parts with
        | [] => ""
        | _ => join (nl ++ nl) abstract_parts
        end in
      let authors :=
        match ET.find_desc "AuthorList" article with
        | Some author_list =>
            flat_map author_name (ET.findall_desc "Author" author_list)
        | None => []
        end in
      let journal :=
        match ET.find_desc "Journal" article with
        | Some journal_elem =>
            match ET.find_desc "Title" journal_elem with
            | Some journal_title => ET.text journal_title
            | None => Some ""
            end
        | None => Some ""
        end in
      let year :=
        match ET.find_desc "PubDate" article with
        | Some pub_date =>
            match ET.find "Year" pub_date with
            | Some year_elem => ET.text year_elem
            | None => Some ""
            end
        | None => Some ""
        end in
      let ids :=
        match ET.find_desc "ArticleIdList" root with
        | Some article_id_list =>
            fold_left article_id_step (ET.findall "ArticleId" article_id_list)
                      (Some "", Some "")
        | None => (Some "", Some "")
        end in
      Some {| title := title; abstract := abstract; authors := authors;
              journal := journal; year := year;
              doi := fst ids; pmc_id := snd ids |}
  end.

(** [parse_metadata(xml_data)]: any exception, here the parser's, yields
    [None]. *)
Definition parse_metadata {ext : Externals} (xml_data : string) : option Metadata :=
  match fromstring xml_data with
  | Some root => parse_metadata_root root
  | None => None
  end.

(* ================================================================= *)
(** ** State and exceptions *)

Definition path_eqb (p q : path) : bool :=
  match p, q with
  | TmpFile n s, TmpFile m t => Nat.eqb n m && String.eqb s t
  | OutFile f, OutFile g => String.eqb f g
  | _, _ => false
  end.

Record World := mkWorld {
  requests : list Request;       (* requests sent so far, oldest first *)
  files : list (path * string);  (* the files that exist, with their content *)
  tmp_serial : nat;              (* transient files created so far *)
  sleeps : nat                   (* calls of [time.sleep] so far *)
}.

Inductive Res (A : Type) : Type :=
  | Ok (a : A)
  | Raise (e : exn).
Arguments Ok {A} a.
Arguments Raise {A} e.

Definition M (A : Type) : Type := World -> Res A * World.

Definition ret {A} (a : A) : M A := fun w => (Ok a, w).

Definition raise {A} (e : exn) : M A := fun w => (Raise e, w).

Definition bind {A B} (m : M A) (k : A -> M B) : M B :=
  fun w =>
    match m w with
    | (Ok a, w') => k a w'
    | (Raise e, w') => (Raise e, w')
    end.

(** [try: m  except Exception as e: h e] *)
Definition try_except {A} (m : M A) (h : exn -> M A) : M A :=
  fun w =>
    match m w with
    | (Ok a, w') => (Ok a, w')
    | (Raise e, w') => h e w'
    end.

(** A pure computation that may raise, run inside [M]. *)
Definition lift {A} (r : Res A) : M A := fun w => (r, w).

Notation "x <- m ;; k" := (bind m (fun x => k))
  (at level 61, m at next level, right associativity).
Notation "m ;;; k" := (bind m (fun _ => k))
  (at level 61, right associativity).

Module FS.

Fixpoint lookup (p : path) (fs : list (path * string)) : option string :=
  match fs with
  | [] => None
  | (q, c) :: r => if path_eqb q p then Some c else lookup p r
  end.

Definition remove (p : path) (fs : list (path * string)) : list (path * string) :=
  filter (fun qc => negb (path_eqb (fst qc) p)) fs.

Definition exists_ (p : path) (fs : list (path * string)) : bool :=
  match lookup p fs with Some _ => true | None => false end.

End FS.

Definition set_files (fs : list (path * string)) (w : World) : World :=
  {| requests := requests w; files := fs;
     tmp_serial := tmp_serial w; sleeps := sleeps w |}.

(** [open(p, 'w')] followed by [write(content)]: the file is created or
    replaced. *)
Definition write_file (p : path) (content : string) : M unit :=
  fun w => (Ok tt, set_files ((p, content) :: FS.remove p (files w)) w).

(** [open(p, 'r')] followed by [read()] *)
Definition read_file (p : path) : M string :=
  fun w =>
    match FS.lookup p (files w) with
    | Some c => (Ok c, w)
    | None => (Raise OSError, w)
    end.

(** [Path(p).unlink(missing_ok=True)] *)
Definition unlink (p : path) : M unit :=
  fun w => (Ok tt, set_files (FS.remove p (files w)) w).

(** [tempfile.NamedTemporaryFile(suffix=..., delete=False)], closed at the
    end of its [with] block: a new, empty file that stays on disk. *)
Definition NamedTemporaryFile (suffix : string) : M path :=
  fun w =>
    let p := TmpFile (tmp_serial w) suffix in
    (Ok p, {| requests := requests w; files := (p, "") :: files w;
              tmp_serial := S (tmp_serial w); sleeps := sleeps w |}).

(** The world after one more pause. *)
Definition paused (w : World) : World :=
  {| requests := requests w; files := files w;
     tmp_serial := tmp_serial w; sleeps := S (sleeps w) |}.

Section Collaborators.
Context {ext : Externals}.

(** [time.sleep(delay)]: the call raises, or the pause takes place. *)
Definition sleep (delay : Delay) : M unit :=
  fun w =>
    match sleep_error delay with
    | Some e => (Raise e, w)
    | None => (Ok tt, paused w)
    end.

(** [with open(p, 'w', encoding='utf-8') as f: f.write(content)]: opening
    raises and nothing is written, or the file is created or replaced. *)
Definition open_and_write (p : path) (content : string) : M unit :=
  fun w =>
    match open_error p with
    | Some e => (Raise e, w)
    | None => write_file p content w
    end.

(** [self.session.get(url, params=..., timeout=30)]: the request is sent,
    and the call returns a response or raises. *)
Definition http_get (req : Request) : M Response :=
  fun w =>
    let w' := {| requests := (requests w ++ [req])%list; files := files w;
                 tmp_serial := tmp_serial w; sleeps := sleeps w |} in
    match session_get (requests w) req with
    | Some r => (Ok r, w')
    | None => (Raise RequestException, w')
    end.

(** [subprocess.run(['pdftotext', '-layout', pdf, txt], ...)]: the tool
    reads the input file, writes the output file and exits; it exits with
    code 1 when it cannot open its input. *)
Definition subprocess_run (pdf txt : path) : M Z :=
  fun w =>
    match FS.lookup pdf (files w) with
    | None => (Ok 1%Z, w)
    | Some content =>
        match pdftotext content with
        | Exited rc out =>
            (Ok rc, set_files ((txt, out) :: FS.remove txt (files w)) w)
        | RunRaises => (Raise SubprocessError, w)
        end
    end.

End Collaborators.

(** [response.raise_for_status()] *)
Definition raise_for_status (r : Response) : M unit :=
  if (Z.leb 400 (status_code r) && Z.ltb (status_code r) 600)%bool
  then raise HTTPError else ret tt.

(* ================================================================= *)
(** ** Full-text extractors *)

Definition base_url : string := "https://eutils.ncbi.nlm.nih.gov/entrez/eutils/".

Module BS.

Definition mem (s : string) (l : list string) : bool :=
  existsb (String.eqb s) l.

(** [for t in soup(names): t.decompose()]: every tag with one of the names
    disappears with all that it contains. *)
Fixpoint decompose (names : list string) (n : Node) : list Node :=
  match n with
  | NText _ => [n]
  | NTag name cl i cs =>
      if mem name names then []
      else [NTag name cl i (flat_map (decompose names) cs)]
  end.

(** [tag.get_text()] *)
Fixpoint get_text (n : Node) : string :=
  match n with
  | NText s => s
  | NTag _ _ _ cs => join "" (map get_text cs)
  end.

(** [soup.get_text()] *)
Definition soup_text (soup : Soup) : string := join "" (map get_text soup).

(** The tags below a node, the node included, in document order. *)
Fixpoint tags (n : Node) : list Node :=
  match n with
  | NText _ => []
  | NTag _ _ _ cs => n :: flat_map tags cs
  end.

Inductive Selector : Type :=
  | ByName (name : string)      (* [name] *)
  | ByClass (cls : string)      (* [.cls] *)
  | ById (i : string).          (* [#i] *)

Definition matches (sel : Selector) (n : Node) : bool :=
  match n, sel with
  | NTag name _ _ _, ByName x => String.eqb name x
  | NTag _ cl _ _, ByClass x => mem x cl
  | NTag _ _ (Some i) _, ById x => String.eqb i x
  | _, _ => false
  end.

(** [soup.select_one(selector)] *)
Definition select_one (sel : Selector) (soup : Soup) : option Node :=
  hd_error (filter (matches sel) (flat_map tags soup)).

End BS.

Definition removed_tags : list string :=
  ["script"; "style"; "nav"; "header"; "footer"].

Definition article_selectors : list BS.Selector :=
  [BS.ByName "article"; BS.ByName "main"; BS.ByClass "article-content";
   BS.ByClass "article-body"; BS.ById "article-content"; BS.ByClass "content"].

(** The loop over [article_selectors]: the text of the first region found. *)
Fixpoint region_text (selectors : list BS.Selector) (soup : Soup) : option string :=
  match selectors with
  | [] => None
  | selector :: rest =>
      match BS.select_one selector soup with
      | Some article => Some (BS.get_text article)
      | None => region_text rest soup
      end
  end.

(** The text that [extract_text_from_html] holds when it reaches its last
    line. *)
Definition html_clean_text (soup0 : Soup) : string :=
  let soup := flat_map (BS.decompose removed_tags) soup0 in
  let text :=
    match region_text article_selectors soup with
    | Some t => if truthy t then t else BS.soup_text soup
    | None => BS.soup_text soup
    end in
  let lines := map strip (splitlines text) in
  let lines := filter truthy lines in
  let text := join (nl ++ nl) lines in
  re_collapse_blank text.

(** The text parts collected by [fetch_from_pmc] from one field ([text] or
    [tail]) of an element. *)
Definition stripped_part (t : option string) : list string :=
  match t with
  | Some s => if truthy s && truthy (strip s) then [strip s] else []
  | None => []
  end.

Definition text_parts (root : Element) : list string :=
  flat_map (fun elem => (stripped_part (ET.text elem)
                         ++ stripped_part (ET.tail elem))%list)
           (ET.iter root).

(** The text that [fetch_from_pmc] holds when it reaches its [return]. *)
Definition pmc_clean_text (root : Element) : string :=
  re_sub_runs isspace " " (join " " (text_parts root)).

Section Extractors.
Context {ext : Externals}.

(** [extract_text_from_html(html_content)] *)
Definition extract_text_from_html (html_content : string) : option string :=
  match BeautifulSoup html_content with
  | Some soup =>
      let text := html_clean_text soup in
      if Nat.ltb 500 (String.length text) then Some text else None
  | None => None
  end.

(** [fetch_from_pmc(pmc_id)] *)
Definition fetch_from_pmc (pmc_id : option string) : M (option string) :=
  match pmc_id with
  | None => ret None
  | Some id0 =>
      if negb (truthy id0) then ret None
      else
        let pmc_id := remove_PMC id0 in
        let url := base_url ++ "efetch.fcgi" in
        let params := [("db", "pmc"); ("id", pmc_id); ("retmode", "xml")] in
        try_except
          (response <- http_get (mkRequest url params) ;;
           raise_for_status response ;;;
           root <- lift (match fromstring (resp_text response) with
                         | Some root => Ok root
                         | None => Raise ParseError
                         end) ;;
           let full_text := pmc_clean_text root in
           ret (if Nat.ltb 500 (String.length full_text)
                then Some full_text else None))
          (fun _ => ret None)
  end.

Definition doi_sources (doi : string) : list string :=
  ["https://doi.org/" ++ doi;
   "https://www.ncbi.nlm.nih.gov/pmc/articles/pmid/" ++ doi ++ "/"].

(** The loop of [fetch_from_doi] over the source URLs; an iteration ends
    the call with a [return], or goes on to the next URL. *)
Fixpoint try_sources (sources : list string) : M (option string) :=
  match sources with
  | [] => ret None
  | url :: rest =>
      attempt <- try_except
                   (response <- http_get (mkRequest url []) ;;
                    if Z.eqb (status_code response) 200
                    then ret (Some (extract_text_from_html (resp_text response)))
                    else ret None)
                   (fun _ => ret None) ;;
      match attempt with
      | Some result => ret result
      | None => try_sources rest
      end
  end.

(** [fetch_from_doi(doi)] *)
Definition fetch_from_doi (doi : option string) : M (option string) :=
  match doi with
  | None => ret None
  | Some d => if negb (truthy d) then ret None else try_sources (doi_sources d)
  end.

(** [convert_pdf_to_text(pdf_content)] *)
Definition convert_pdf_to_text (pdf_content : string) : M (option string) :=
  try_except
    (tmp_pdf_path <- NamedTemporaryFile ".pdf" ;;
     write_file tmp_pdf_path pdf_content ;;;
     tmp_txt_path <- NamedTemporaryFile ".txt" ;;
     returncode <- subprocess_run tmp_pdf_path tmp_txt_path ;;
     if Z.eqb returncode 0 then
       text <- read_file tmp_txt_path ;;
       unlink tmp_pdf_path ;;;
       unlink tmp_txt_path ;;;
       ret (if Nat.ltb 500 (String.length text) then Some text else None)
     else ret None)
    (fun _ => ret None).

End Extractors.

(* ================================================================= *)
(** ** Record serializer *)

(** The class [[^\w\s-]] complemented: the characters that
    [clean_filename] keeps in its first substitution. *)
Definition filename_char (c : ascii) : bool :=
  is_word c || isspace c || Ascii.eqb c hyphen.

(** [clean_filename(text)] *)
Definition clean_filename (text : string) : string :=
  let text := re_delete_outside filename_char text in
  let text := re_sub_runs isspace "_" text in
  slice_to 100 text.

(** [sep.join(items)] on a list whose items may be [None]: [str.join]
    raises [TypeError] at an item that is not a string. *)
Fixpoint strings_of (items : list (option string)) : Res (list string) :=
  match items with
  | [] => Ok []
  | Some s :: r =>
      match strings_of r with
      | Ok l => Ok (s :: l)
      | Raise e => Raise e
      end
  | None :: _ => Raise TypeError
  end.

Definition join_items (sep : string) (items : list (option string)) : Res string :=
  match strings_of items with
  | Ok l => Ok (join sep l)
  | Raise e => Raise e
  end.

(** [if metadata['authors']:] *)
Definition nonempty {A} (l : list A) : bool :=
  match l with [] => false | _ :: _ => true end.

Definition rule_line : string := nl ++ str_mul "=" 80 ++ nl.

(** The list [content_parts] that [save_article] builds. *)
Definition content_parts (pmid : string) (metadata : Metadata)
           (full_text : option string) : Res (list string) :=
  let head := ["PubMed ID: " ++ pmid; "Title: " ++ title metadata] in
  match (if nonempty (authors metadata)
         then match join_items ", " (authors metadata) with
              | Ok s => Ok ["Authors: " ++ s]
              | Raise e => Raise e
              end
         else Ok []) with
  | Raise e => Raise e
  | Ok authors_part =>
      let journal_part :=
        if truthy_opt (journal metadata) then
          let journal_info := fmt (journal metadata) in
          let journal_info :=
            if truthy_opt (year metadata)
            then journal_info ++ " (" ++ fmt (year metadata) ++ ")"
            else journal_info in
          ["Journal: " ++ journal_info]
        else [] in
      let doi_part :=
        if truthy_opt (doi metadata) then ["DOI: " ++ fmt (doi metadata)] else [] in
      let body :=
        if truthy_opt full_text then ["FULL TEXT:" ++ nl; fmt full_text]
        else if truthy (abstract metadata) then ["ABSTRACT:" ++ nl; abstract metadata]
        else ["No full text or abstract available."] in
      Ok (head ++ authors_part ++ journal_part ++ doi_part ++ [rule_line] ++ body)%list
  end.

(** [save_article(pmid, metadata, full_text)] *)
Definition save_article {ext : Externals} (pmid : string) (metadata : Metadata)
           (full_text : option string) : M path :=
  let title_clean := clean_filename (title metadata) in
  let filename := "PMID_" ++ pmid ++ "_" ++ title_clean ++ ".txt" in
  let filepath := OutFile filename in
  parts <- lift (content_parts pmid metadata full_text) ;;
  let content := join (nl ++ nl) parts in
  open_and_write filepath content ;;;
  ret filepath.

(* ================================================================= *)
(** ** Orchestrator and batch driver *)

Section Pipeline.
Context {ext : Externals}.

(** [fetch_article_metadata(pmid)] *)
Definition fetch_article_metadata (pmid : string) : M (option string) :=
  let url := base_url ++ "efetch.fcgi" in
  let params := [("db", "pubmed"); ("id", pmid); ("retmode", "xml")] in
  try_except
    (response <- http_get (mkRequest url params) ;;
     raise_for_status response ;;;
     ret (Some (resp_text response)))
    (fun _ => ret None).

(** [process_pmid(pmid)] *)
Definition process_pmid (pmid : string) : M bool :=
  xml_data <- fetch_article_metadata pmid ;;
  match xml_data with
  | None => ret false
  | Some xml =>
      if negb (truthy xml) then ret false
      else
        match parse_metadata xml with
        | None => ret false
        | Some metadata =>
            full_text <- (if truthy_opt (pmc_id metadata)
                          then fetch_from_pmc (pmc_id metadata)
                          else ret None) ;;
            full_text <- (if negb (truthy_opt full_text) && truthy_opt (doi metadata)
                          then fetch_from_doi (doi metadata)
                          else ret full_text) ;;
            save_article pmid metadata full_text ;;;
            ret true
        end
  end.

(** The counters of [process_pmid_list]. *)
Record Tally := mkTally {
  total : nat;
  success_count : nat;
  fail_count : nat
}.

(** One identifier of the batch: the counters after it. *)
Definition count_pmid (pmid : string) (counts : nat * nat) : M (nat * nat) :=
  try_except
    (ok <- process_pmid pmid ;;
     ret (if ok : bool then (S (fst counts), snd counts)
          else (fst counts, S (snd counts))))
    (fun _ => ret (fst counts, S (snd counts))).

(** The loop of [process_pmid_list] from the [i]-th identifier on, [n]
    being [len(pmids)].  The pause stands after the [try] statement: what
    it raises leaves the loop. *)
Fixpoint batch_loop (n i : nat) (pmids : list string) (delay : Delay)
         (counts : nat * nat) : M (nat * nat) :=
  match pmids with
  | [] => ret counts
  | pmid :: rest =>
      counts' <- count_pmid pmid counts ;;
      (if Nat.ltb i n then sleep delay else ret tt) ;;;
      batch_loop n (S i) rest delay counts'
  end.

(** [process_pmid_list(pmid_file, delay)], given the lines of the file;
    the result is the tally that the summary prints. *)
Definition process_pmid_list (lines : list string) (delay : Delay) : M Tally :=
  let pmids := map strip (filter (fun line => truthy (strip line)) lines) in
  counts <- batch_loop (List.length pmids) 1 pmids delay (0, 0) ;;
  ret {| total := List.length pmids;
         success_count := fst counts;
         fail_count := snd counts |}.

End Pipeline.

(* ================================================================= *)
(** ** Sample documents and a sample world *)

Module Sample.

Definition leaf (tag : string) (text : option string) : Element :=
  mkElement tag [] text None [].

Definition node (tag : string) (children : list Element) : Element :=
  mkElement tag [] None None children.

Definition article_id (id_type : string) (text : option string) : Element :=
  mkElement "ArticleId" [("IdType", id_type)] text None [].

(** A record as the bibliographic endpoint sends it: the citation with its
    article, then the identifier list. *)
Definition record (article_children ids : list Element) : Element :=
  node "PubmedArticleSet"
    [node "PubmedArticle"
       [node "MedlineCitation" [node "Article" article_children];
        node "PubmedData" [node "ArticleIdList" ids]]].

(** Two identifiers of each type. *)
Definition two_ids_list : list Element :=
  [article_id "pubmed" (Some "1");
   article_id "doi" (Some "10.1000/first");
   article_id "pmc" (Some "PMC1");
   article_id "doi" (Some "10.1000/second");
   article_id "pmc" (Some "PMC2")].

Definition two_ids : Element :=
  record [leaf "ArticleTitle" (Some "Two identifiers")] two_ids_list.

Definition two_ids_metadata : Metadata :=
  {| title := "Two identifiers"; abstract := ""; authors := [];
     journal := Some ""; year := Some "";
     doi := Some "10.1000/second"; pmc_id := Some "PMC2" |}.

(** The elements are there, and they are empty:
    [<Title/>], [<Year/>], [<ArticleId IdType='doi'/>],
    [<ArticleId IdType='pmc'/>]. *)
Definition empty_fields : Element :=
  record [leaf "ArticleTitle" (Some "Empty fields");
          node "Journal"
            [node "JournalIssue" [node "PubDate" [leaf "Year" None]];
             leaf "Title" None]]
         [article_id "doi" None; article_id "pmc" None].

(** [<ArticleTitle/>] *)
Definition empty_title : Element :=
  record [leaf "ArticleTitle" None] [].

(** An author whose last name is the empty element [<LastName/>]. *)
Definition empty_last_name : Element :=
  record [leaf "ArticleTitle" (Some "A study");
          node "AuthorList" [node "Author" [leaf "LastName" None]]]
         [].

(** A plain record with an abstract and neither repository identifier
    nor DOI. *)
Definition plain_article : Element :=
  node "Article" [leaf "ArticleTitle" (Some "A plain record");
                  node "Abstract" [leaf "AbstractText" (Some "X")]].

Definition plain : Element :=
  record [leaf "ArticleTitle" (Some "A plain record");
          node "Abstract" [leaf "AbstractText" (Some "X")]]
         [].

Definition plain_metadata : Metadata :=
  {| title := "A plain record"; abstract := "X"; authors := [];
     journal := Some ""; year := Some ""; doi := Some ""; pmc_id := Some "" |}.

(** A full-text record whose cleaned text is ["Intro Background "]
    followed by [pad] letters. *)
Definition full_text_record (pad : nat) : Element :=
  node "article"
    [mkElement "title" [] (Some "Intro ") None [];
     mkElement "p" [] (Some "Background") (Some (str_mul "x" pad)) []].

(** A page whose article region holds [n] letters. *)
Definition page (n : nat) : Soup :=
  [NTag "html" [] None
     [NTag "body" [] None
        [NTag "nav" [] None [NText "Home | About"];
         NTag "article" [] None [NText (str_mul "a" n)]]]].

Fixpoint assoc {A} (key : string) (table : list (string * A)) : option A :=
  match table with
  | [] => None
  | (k, v) :: r => if String.eqb k key then Some v else assoc key r
  end.

Definition documents : list (string * Element) :=
  [("<two_ids/>", two_ids);
   ("<empty_fields/>", empty_fields);
   ("<empty_title/>", empty_title);
   ("<empty_last_name/>", empty_last_name);
   ("<plain/>", plain);
   ("<full_text pad='483'/>", full_text_record 483);
   ("<full_text pad='484'/>", full_text_record 484)].

Definition pages : list (string * Soup) :=
  [("<page n='40'>", page 40);
   ("<page n='500'>", page 500);
   ("<page n='501'>", page 501)].

(** The key under which the sample network files a request: the URL, and
    the [id] parameter when there is one. *)
Definition request_key (req : Request) : string :=
  match ET.lookup "id" (req_params req), ET.lookup "db" (req_params req) with
  | Some i, Some db => db ++ ":" ++ i
  | _, _ => req_url req
  end.

Definition responses : list (string * Response) :=
  [("pubmed:1", mkResponse 200 "<empty_last_name/>");
   ("pubmed:2", mkResponse 200 "<plain/>");
   ("pubmed:3", mkResponse 404 "");
   ("pubmed:4", mkResponse 200 "not xml");
   ("pmc:500", mkResponse 200 "<full_text pad='483'/>");
   ("pmc:501", mkResponse 200 "<full_text pad='484'/>");
   ("https://doi.org/10.1000/short", mkResponse 200 "<page n='40'>");
   ("https://www.ncbi.nlm.nih.gov/pmc/articles/pmid/10.1000/short/",
    mkResponse 200 "<page n='501'>");
   ("https://doi.org/10.1000/moved", mkResponse 404 "");
   ("https://www.ncbi.nlm.nih.gov/pmc/articles/pmid/10.1000/moved/",
    mkResponse 200 "<page n='501'>")].

Definition tool (pdf_content : string) : ToolRun :=
  if String.eqb pdf_content "%PDF 500" then Exited 0 (str_mul "a" 500)
  else if String.eqb pdf_content "%PDF 501" then Exited 0 (str_mul "a" 501)
  else if String.eqb pdf_content "%PDF slow" then RunRaises
  else Exited 1 "".

(** The sample file system refuses a document whose path has a
    directory part (no such directory exists), holds a NUL character, or
    is longer than 255 characters. *)
Definition refused_name (name : string) : bool :=
  negb (forallb_str (fun c => negb (Ascii.eqb c "/" || Ascii.eqb c "000")) name)
  || Nat.ltb 255 (String.length name).

Definition open_refusal (p : path) : option exn :=
  match p with
  | OutFile name => if refused_name name then Some OSError else None
  | TmpFile _ _ => None
  end.

(** [time.sleep] refuses a negative delay, not-a-number and the
    infinities. *)
Definition sleep_refusal (delay : Delay) : option exn :=
  match delay with
  | Finite mantissa _ => if Z.ltb mantissa 0 then Some ValueError else None
  | NotANumber => Some ValueError
  | Infinite true => Some ValueError
  | Infinite false => Some OverflowError
  end.

(** The default of the [--delay] option, 0.5 seconds. *)
Definition default_delay : Delay := Finite 1 (-1).

Definition env : Externals := {|
  fromstring := fun xml => assoc xml documents;
  BeautifulSoup := fun html => assoc html pages;
  session_get := fun _ req => assoc (request_key req) responses;
  pdftotext := tool;
  open_error := open_refusal;
  sleep_error := sleep_refusal
|}.

Definition w0 : World :=
  {| requests := []; files := []; tmp_serial := 0; sleeps := 0 |}.

End Sample.

(** More sample data, on top of [Sample]. *)
Module Sample2.

Import Sample.

Definition empty_title_article : Element :=
  node "Article" [leaf "ArticleTitle" None].

Definition empty_title_metadata : Metadata :=
  {| title := ""; abstract := ""; authors := [];
     journal := Some ""; year := Some ""; doi := Some ""; pmc_id := Some "" |}.

(** A record with an author, a journal, a year, a DOI and a repository
    identifier. *)
Definition with_repository : Element :=
  record [leaf "ArticleTitle" (Some "On radioactive substances");
          node "AuthorList"
            [node "Author" [leaf "LastName" (Some "Curie");
                            leaf "ForeName" (Some "Marie")]];
          node "Journal"
            [node "JournalIssue" [node "PubDate" [leaf "Year" (Some "1903")]];
             leaf "Title" (Some "Annales")];
          node "Abstract" [leaf "AbstractText" (Some "A summary.")]]
         [article_id "doi" (Some "10.1000/moved");
          article_id "pmc" (Some "PMC501")].

(** Three author entries: one with both names, one without a last name
    (a collective name), one whose last name is the empty element. *)
Definition unnamed_author : Element := node "Author" [leaf "LastName" None].

Definition mixed_authors_article : Element :=
  node "Article"
    [leaf "ArticleTitle" (Some "Three entries");
     node "AuthorList"
       [node "Author" [leaf "LastName" (Some "Curie");
                       leaf "ForeName" (Some "Marie")];
        node "Author" [leaf "CollectiveName" (Some "The Consortium")];
        unnamed_author]].

Definition mixed_authors : Element :=
  node "PubmedArticleSet"
    [node "PubmedArticle" [node "MedlineCitation" [mixed_authors_article]]].

Definition mixed_authors_metadata : Metadata :=
  {| title := "Three entries"; abstract := "";
     authors := [Some "Marie Curie"; None];
     journal := Some ""; year := Some ""; doi := Some ""; pmc_id := Some "" |}.

Definition with_repository_metadata : Metadata :=
  {| title := "On radioactive substances"; abstract := "A summary.";
     authors := [Some "Marie Curie"];
     journal := Some "Annales"; year := Some "1903";
     doi := Some "10.1000/moved"; pmc_id := Some "PMC501" |}.

Definition documents : list (string * Element) :=
  (Sample.documents ++ [("<with_repository/>", with_repository)])%list.

Definition responses : list (string * Response) :=
  (Sample.responses ++ [("pubmed:7", mkResponse 200 "<with_repository/>")])%list.

Definition env : Externals := {|
  fromstring := fun xml => assoc xml documents;
  BeautifulSoup := fun html => assoc html pages;
  session_get := fun _ req => assoc (request_key req) responses;
  pdftotext := tool;
  open_error := open_refusal;
  sleep_error := sleep_refusal
|}.

(** A world with a document already in the output directory. *)
Definition w1 : World :=
  {| requests := []; files := [(OutFile "PMID_0_Old.txt", "old")];
     tmp_serial := 0; sleeps := 0 |}.

End Sample2.

(* ================================================================= *)
(** ** Vocabulary of the properties *)

(** What a character of a sanitized title can be: a word character or a
    hyphen, and never whitespace. *)
Definition sanitized_char (c : ascii) : bool :=
  (is_word c || Ascii.eqb c hyphen) && negb (isspace c).

(** The last element of a list. *)
Definition last_error {A} (l : list A) : option A := hd_error (rev l).

(** The entries of an identifier list that carry a given [IdType]. *)
Definition id_type_is (t : string) (article_id : Element) : bool :=
  match ET.get article_id "IdType" with
  | Some x => String.eqb x t
  | None => false
  end.

(** The pair [(doi, pmc_id)] that [parse_metadata] computes from the
    document. *)
Definition parsed_ids (root : Element) : option string * option string :=
  match ET.find_desc "ArticleIdList" root with
  | Some article_id_list =>
      fold_left article_id_step (ET.findall "ArticleId" article_id_list)
                (Some "", Some "")
  | None => (Some "", Some "")
  end.

(** "The text [t] is returned as present exactly when it is longer than
    [n] characters": what an extractor's result [r] must then be. *)
Definition present_iff_longer_than (n : nat) (t : string) (r : option string) : Prop :=
  (n < String.length t -> r = Some t) /\ (String.length t <= n -> r = None).

(** The request that [fetch_from_pmc] sends for a repository identifier. *)
Definition pmc_request (pmc_id : string) : Request :=
  mkRequest (base_url ++ "efetch.fcgi")
            [("db", "pmc"); ("id", remove_PMC pmc_id); ("retmode", "xml")].

(** [raise_for_status] lets the response through. *)
Definition status_ok (r : Response) : Prop :=
  (status_code r < 400 \/ 600 <= status_code r)%Z.

(** The two transient files of a conversion started in the world [w]. *)
Definition tmp_pdf (w : World) : path := TmpFile (tmp_serial w) ".pdf".
Definition tmp_txt (w : World) : path := TmpFile (S (tmp_serial w)) ".txt".

(** The world in which the tool runs: both transient files are on disk,
    the first with the document. *)
Definition staged (pdf_content : string) (w : World) : list (path * string) :=
  (tmp_txt w, "") :: (tmp_pdf w, pdf_content)
    :: FS.remove (tmp_pdf w) ((tmp_pdf w, "") :: files w).

(** The world after the requests [reqs] have been sent from [w]. *)
Definition sent (reqs : list Request) (w : World) : World :=
  {| requests := (requests w ++ reqs)%list; files := files w;
     tmp_serial := tmp_serial w; sleeps := sleeps w |}.

(** The two requests of [fetch_from_doi]. *)
Definition doi_first (doi : string) : Request :=
  mkRequest ("https://doi.org/" ++ doi) [].
Definition doi_second (doi : string) : Request :=
  mkRequest ("https://www.ncbi.nlm.nih.gov/pmc/articles/pmid/" ++ doi ++ "/") [].

(** The metadata with which [process_pmid] goes on after its two early
    returns, if it does. *)
Definition metadata_of {ext : Externals} (pmid : string) (w : World) : option Metadata :=
  match fst (fetch_article_metadata pmid w) with
  | Ok (Some xml) => if truthy xml then parse_metadata xml else None
  | _ => None
  end.

(** A line of the identifier file that is not blank. *)
Definition nonblank (line : string) : bool := truthy (strip line).

(** The request that [fetch_article_metadata] sends for an identifier. *)
Definition metadata_request (pmid : string) : Request :=
  mkRequest (base_url ++ "efetch.fcgi")
            [("db", "pubmed"); ("id", pmid); ("retmode", "xml")].

(** The names of all tags of a tree, in document order. *)
Definition tag_names (soup : Soup) : list string :=
  flat_map (fun n => match n with NTag name _ _ _ => [name] | NText _ => [] end)
           (flat_map BS.tags soup).

(** No three line feeds in a row; [run] counts the line feeds that stand
    immediately before the string. *)
Fixpoint no_triple_lf (run : nat) (s : string) : bool :=
  match s with
  | EmptyString => true
  | String c r =>
      if Ascii.eqb c LF then Nat.ltb run 2 && no_triple_lf (S run) r
      else no_triple_lf 0 r
  end.

(** Whitespace occurs only as single spaces; [after_space] tells that a
    space stands immediately before the string. *)
Fixpoint single_spaced (after_space : bool) (s : string) : bool :=
  match s with
  | EmptyString => true
  | String c r =>
      if isspace c
      then Ascii.eqb c " " && negb after_space && single_spaced true r
      else single_spaced false r
  end.

(** An author entry that [parse_metadata] keeps, and the name it gives. *)
Definition has_last_name (author : Element) : bool :=
  match ET.find "LastName" author with Some _ => true | None => false end.

Definition display_name (author : Element) : option string :=
  match ET.find "LastName" author, ET.find "ForeName" author with
  | Some last_name, Some fore_name =>
      Some (fmt (ET.text fore_name) ++ " " ++ fmt (ET.text last_name))
  | Some last_name, None => ET.text last_name
  | None, _ => None
  end.

(** The name of the document that [save_article] writes. *)
Definition document_path (pmid : string) (metadata : Metadata) : path :=
  OutFile ("PMID_" ++ pmid ++ "_" ++ clean_filename (title metadata) ++ ".txt").

(** Induction on a node with the hypothesis for all its contents. *)
Fixpoint Node_children_ind (P : Node -> Prop)
         (text_case : forall s, P (NText s))
         (tag_case : forall name cl i cs, Forall P cs -> P (NTag name cl i cs))
         (n : Node) : P n :=
  match n with
  | NText s => text_case s
  | NTag name cl i cs =>
      tag_case name cl i cs
               ((fix all (l : list Node) : Forall P l :=
                   match l with
                   | [] => Forall_nil P
                   | c :: r =>
                       Forall_cons c (Node_children_ind P text_case tag_case c) (all r)
                   end) cs)
  end.

(** The characters that could take a file name out of the output
    directory or change its extension. *)
Definition path_special (c : ascii) : bool :=
  Ascii.eqb c "/" || Ascii.eqb c "\" || Ascii.eqb c "." || Ascii.eqb c "000".

(** A record with another year, and with another abstract. *)
Definition with_year (y : option string) (m : Metadata) : Metadata :=
  {| title := title m; abstract := abstract m; authors := authors m;
     journal := journal m; year := y; doi := doi m; pmc_id := pmc_id m |}.

Definition with_abstract (a : string) (m : Metadata) : Metadata :=
  {| title := title m; abstract := a; authors := authors m;
     journal := journal m; year := year m; doi := doi m; pmc_id := pmc_id m |}.

(** A computation that leaves a component of the world as it found it,
    whatever it returns or raises. *)
Definition preserves {A X} (f : World -> X) (c : M A) : Prop :=
  forall w, f (snd (c w)) = f w.

(** A component that sending a request does not change. *)
Definition offline {X} (f : World -> X) : Prop :=
  forall reqs w, f (sent reqs w) = f w.

(** A component that writing a file does not change. *)
Definition diskless {X} (f : World -> X) : Prop :=
  forall fs w, f (set_files fs w) = f w.

(** [process_pmid] returned [True]. *)
Definition returned_true (r : Res bool) : bool :=
  match r with Ok true => true | _ => false end.

(** What [process_pmid] gives for each identifier of a batch, in order:
    the first in the world [w], each next one in the world that the one
    before it left, after the pause that follows it when it is not the
    [n]-th. *)
Fixpoint batch_outcomes {ext : Externals} (n i : nat) (pmids : list string)
         (w : World) : list (Res bool) :=
  match pmids with
  | [] => []
  | pmid :: rest =>
      let w' := snd (process_pmid pmid w) in
      fst (process_pmid pmid w)
        :: batch_outcomes n (S i) rest (if Nat.ltb i n then paused w' else w')
  end.

(** The same for the lines of an identifier file. *)
Definition outcomes {ext : Externals} (lines : list string) (w : World)
  : list (Res bool) :=
  let pmids := map strip (filter nonblank lines) in
  batch_outcomes (List.length pmids) 1 pmids w.

(** Induction on an element with the hypothesis for all its children. *)
Fixpoint Element_children_ind (P : Element -> Prop)
         (step : forall t a tx tl cs, Forall P cs -> P (mkElement t a tx tl cs))
         (e : Element) : P e :=
  match e with
  | mkElement t a tx tl cs =>
      step t a tx tl cs
           ((fix all (l : list Element) : Forall P l :=
               match l with
               | [] => Forall_nil P
               | c :: r => Forall_cons c (Element_children_ind P step c) (all r)
               end) cs)
  end.

(* ================================================================= *)
(** * Properties *)

(** ** Strings *)

Module PyStrFacts.

Lemma forallb_str_cons (p : ascii -> bool) (c : ascii) (s : string) :
  forallb_str p (String c s) = p c && forallb_str p s.
Proof. reflexivity. Qed.

Lemma forallb_str_app (p : ascii -> bool) (a b : string) :
  forallb_str p (a ++ b) = forallb_str p a && forallb_str p b.
Proof.
  induction a as [|c a IH]; simpl.
  - reflexivity.
  - rewrite !forallb_str_cons, IH. now rewrite andb_assoc.
Qed.

Lemma slice_to_length (n : nat) (s : string) :
  String.length (slice_to n s) <= n.
Proof.
  revert s; induction n as [|n IH]; intros [|c s]; simpl; try lia.
  specialize (IH s). lia.
Qed.

Lemma slice_to_forallb (p : ascii -> bool) (n : nat) (s : string) :
  forallb_str p s = true -> forallb_str p (slice_to n s) = true.
Proof.
  revert s; induction n as [|n IH]; intros [|c s]; simpl; auto.
  rewrite !forallb_str_cons. intros [Hc Hs]%andb_prop.
  now rewrite Hc, IH.
Qed.

Lemma re_delete_outside_forallb (keep : ascii -> bool) (s : string) :
  forallb_str keep (re_delete_outside keep s) = true.
Proof.
  induction s as [|c s IH]; simpl; [reflexivity|].
  destruct (keep c) eqn:Hc; [|exact IH].
  now rewrite forallb_str_cons, Hc, IH.
Qed.

(** After the substitution, the characters are those of the replacement
    and the characters of the subject outside the class. *)
Lemma re_sub_runs_from_forallb (cls p : ascii -> bool) (rep : string)
      (in_run : bool) (s : string) :
  forallb_str p rep = true ->
  forallb_str (fun c => cls c || p c) s = true ->
  forallb_str p (re_sub_runs_from cls rep in_run s) = true.
Proof.
  intros Hrep. revert in_run.
  induction s as [|c s IH]; intros in_run; simpl; [reflexivity|].
  rewrite forallb_str_cons. intros [Hc Hs]%andb_prop.
  destruct (cls c) eqn:Hcls.
  - destruct in_run; [now apply IH|].
    rewrite forallb_str_app, Hrep. now apply IH.
  - simpl in Hc. rewrite forallb_str_cons, Hc. now apply IH.
Qed.

Lemma forallb_str_impl (p q : ascii -> bool) (s : string) :
  (forall c, p c = true -> q c = true) ->
  forallb_str p s = true -> forallb_str q s = true.
Proof.
  intros Hpq. induction s as [|c s IH]; simpl; [reflexivity|].
  rewrite !forallb_str_cons. intros [Hc Hs]%andb_prop.
  now rewrite (Hpq _ Hc), IH.
Qed.

Lemma truthy_nonempty (s : string) : truthy s = true <-> s <> "".
Proof. destruct s; simpl; split; congruence. Qed.

(** The string functions on inputs whose results are known from Python. *)

Example strip_both_ends : strip ("  12345 " ++ nl) = "12345".
Proof. reflexivity. Qed.

Example strip_blank : strip (" " ++ nl) = "".
Proof. reflexivity. Qed.

Example splitlines_boundaries :
  splitlines ("ab" ++ nl ++ nl ++ String CR nl ++ "cd" ++ nl) = ["ab"; ""; ""; "cd"].
Proof. reflexivity. Qed.

Example splitlines_empty : splitlines "" = [].
Proof. reflexivity. Qed.

Example remove_PMC_prefix : remove_PMC "PMC1234" = "1234".
Proof. reflexivity. Qed.

Example remove_PMC_everywhere : remove_PMC "PPMCMC7PMC" = "PMC7".
Proof. reflexivity. Qed.

Example re_sub_runs_spaces :
  re_sub_runs isspace " " ("Intro " ++ nl ++ "  Background") = "Intro Background".
Proof. reflexivity. Qed.

Example re_collapse_blank_runs :
  re_collapse_blank ("a" ++ nl ++ "b" ++ nl ++ nl ++ nl ++ nl ++ "c")
  = "a" ++ nl ++ "b" ++ nl ++ nl ++ "c".
Proof. reflexivity. Qed.

Example slice_to_short : slice_to 100 "short" = "short".
Proof. reflexivity. Qed.

End PyStrFacts.
Import PyStrFacts.

(* ----------------------------------------------------------------- *)
(** ** Filename sanitization *)

(** C7, as stated, fails: the hyphen is not a word character and
    [clean_filename] keeps it; and an underscore of the title next to a
    whitespace run gives two underscores in a row. *)
Lemma clean_filename_keeps_hyphen :
  clean_filename "COVID-19: a   review (2020)" = "COVID-19_a_review_2020"
  /\ forallb_str is_word (clean_filename "COVID-19: a   review (2020)") = false
  /\ clean_filename "a_ b" = "a__b".
Proof. repeat split; reflexivity. Qed.

(** C7, amended: for every title, the sanitized fragment has at most 100
    characters, each of them a word character (the underscore is one) or a
    hyphen, and none of them whitespace. *)
Theorem clean_filename_sanitized (text : string) :
  String.length (clean_filename text) <= 100
  /\ forallb_str sanitized_char (clean_filename text) = true.
Proof.
  unfold clean_filename. split.
  - apply slice_to_length.
  - apply slice_to_forallb. unfold re_sub_runs.
    apply re_sub_runs_from_forallb; [reflexivity|].
    apply forallb_str_impl with (p := filename_char).
    + intros c. unfold filename_char, sanitized_char.
      destruct (isspace c), (is_word c), (Ascii.eqb c hyphen); simpl; auto.
    + apply re_delete_outside_forallb.
Qed.

(* ----------------------------------------------------------------- *)
(** ** Metadata parser *)

Lemma last_error_snoc {A} (l : list A) (x : A) : last_error (l ++ [x])%list = Some x.
Proof. unfold last_error. now rewrite rev_app_distr. Qed.

(** The loop over the identifier list keeps, for each type, the text of
    the last entry of that type, and the initial value when there is
    none. *)
Lemma article_id_fold (l : list Element) (acc : option string * option string) :
  fst (fold_left article_id_step l acc)
  = match last_error (filter (id_type_is "doi") l) with
    | Some e => ET.text e
    | None => fst acc
    end
  /\ snd (fold_left article_id_step l acc)
     = match last_error (filter (id_type_is "pmc") l) with
       | Some e => ET.text e
       | None => snd acc
       end.
Proof.
  induction l as [|x l IH] using rev_ind; [now split|].
  rewrite fold_left_app, !filter_app. simpl.
  destruct IH as [IHd IHp].
  unfold article_id_step at 1 3, id_type_is at 2 4.
  destruct (ET.get x "IdType") as [t|]; simpl.
  - destruct (String.eqb t "doi") eqn:Hd; simpl.
    + apply String.eqb_eq in Hd. subst t. simpl.
      rewrite last_error_snoc, app_nil_r. now split.
    + destruct (String.eqb t "pmc") eqn:Hp; simpl;
        rewrite ?last_error_snoc, ?app_nil_r; now split.
  - rewrite !app_nil_r. now split.
Qed.

(** C3, as stated, fails: with two entries of each type the parser returns
    the second DOI and the second repository identifier. *)
Lemma first_identifier_does_not_win :
  ET.find_desc "ArticleIdList" Sample.two_ids
  = Some (Sample.node "ArticleIdList" Sample.two_ids_list)
  /\ hd_error (filter (id_type_is "doi") Sample.two_ids_list)
     = Some (Sample.article_id "doi" (Some "10.1000/first"))
  /\ hd_error (filter (id_type_is "pmc") Sample.two_ids_list)
     = Some (Sample.article_id "pmc" (Some "PMC1"))
  /\ option_map doi (parse_metadata_root Sample.two_ids)
     = Some (Some "10.1000/second")
  /\ option_map pmc_id (parse_metadata_root Sample.two_ids)
     = Some (Some "PMC2").
Proof. repeat split; reflexivity. Qed.

(** C3, amended: when the identifier list holds entries of type ["doi"]
    (of type ["pmc"]), the parsed DOI (repository identifier) is the text
    of the last such entry in document order. *)
Theorem last_identifier_wins (root article_id_list : Element) (m : Metadata) :
  parse_metadata_root root = Some m ->
  ET.find_desc "ArticleIdList" root = Some article_id_list ->
  (forall e,
      last_error (filter (id_type_is "doi")
                         (ET.findall "ArticleId" article_id_list)) = Some e ->
      doi m = ET.text e)
  /\ (forall e,
         last_error (filter (id_type_is "pmc")
                            (ET.findall "ArticleId" article_id_list)) = Some e ->
         pmc_id m = ET.text e).
Proof.
  unfold parse_metadata_root. intros Hm Hlist.
  destruct (ET.find_desc "Article" root) as [article|]; [|discriminate].
  rewrite Hlist in Hm. injection Hm as <-. simpl.
  destruct (article_id_fold (ET.findall "ArticleId" article_id_list)
                            (Some "", Some "")) as [Hd Hp].
  split; intros e He.
  - now rewrite Hd, He.
  - now rewrite Hp, He.
Qed.

Lemma last_identifier_wins_witness :
  parse_metadata_root Sample.two_ids = Some Sample.two_ids_metadata
  /\ ET.find_desc "ArticleIdList" Sample.two_ids
     = Some (Sample.node "ArticleIdList" Sample.two_ids_list)
  /\ doi Sample.two_ids_metadata = Some "10.1000/second"
  /\ pmc_id Sample.two_ids_metadata = Some "PMC2".
Proof.
  split; [reflexivity|]. split; [reflexivity|].
  destruct (last_identifier_wins Sample.two_ids
              (Sample.node "ArticleIdList" Sample.two_ids_list)
              Sample.two_ids_metadata eq_refl eq_refl) as [Hd Hp].
  split.
  - exact (Hd (Sample.article_id "doi" (Some "10.1000/second")) eq_refl).
  - exact (Hp (Sample.article_id "pmc" (Some "PMC2")) eq_refl).
Defined.

Lemma fragment_truthy (t : option string) :
  Forall (fun s => truthy s = true) (ET.fragment t).
Proof.
  destruct t as [s|]; simpl; [|constructor].
  destruct (truthy s) eqn:Hs; repeat constructor. exact Hs.
Qed.

(** [itertext] yields no empty fragment. *)
Lemma itertext_truthy (e : Element) :
  Forall (fun s => truthy s = true) (ET.itertext e).
Proof.
  induction e as [t a tx tl cs IH] using Element_children_ind. simpl.
  apply Forall_app. split; [apply fragment_truthy|].
  induction IH as [|c r Hc _ IHr]; simpl; [constructor|].
  apply Forall_app. split; [|exact IHr].
  apply Forall_app. split; [exact Hc|apply fragment_truthy].
Qed.

(** Joining fragments, none of them empty, gives the empty string only for
    the empty list. *)
Lemma join_fragments_empty (l : list string) :
  Forall (fun s => truthy s = true) l ->
  join "" l = "" <-> l = [].
Proof.
  intros Hl. split; [|now intros ->].
  destruct Hl as [|s r Hs _]; [reflexivity|].
  destruct s as [|c s]; [discriminate|].
  unfold join. simpl. destruct r; discriminate.
Qed.

(** C5, as stated, fails: for an empty title element the parser returns
    the empty title. *)
Lemma empty_title_is_parsed :
  ET.find_desc "ArticleTitle" Sample.empty_title
  = Some (Sample.leaf "ArticleTitle" None)
  /\ option_map title (parse_metadata_root Sample.empty_title) = Some "".
Proof. split; reflexivity. Qed.

(** C5, amended: when the title element is missing the title is
    ["Unknown"]; when it is there, the title is the concatenation of its
    text fragments, and it is the empty string exactly when the element
    holds no text. *)
Theorem title_of_parsed_record (root article : Element) (m : Metadata) :
  parse_metadata_root root = Some m ->
  ET.find_desc "Article" root = Some article ->
  match ET.find_desc "ArticleTitle" article with
  | None => title m = "Unknown"
  | Some title_elem =>
      title m = join "" (ET.itertext title_elem)
      /\ (title m = "" <-> ET.itertext title_elem = [])
  end.
Proof.
  unfold parse_metadata_root. intros Hm Harticle.
  rewrite Harticle in Hm. injection Hm as <-. simpl.
  destruct (ET.find_desc "ArticleTitle" article) as [title_elem|];
    [|reflexivity].
  split; [reflexivity|].
  apply join_fragments_empty, itertext_truthy.
Qed.

Lemma title_of_parsed_record_witness :
  parse_metadata_root Sample.plain = Some Sample.plain_metadata
  /\ ET.find_desc "Article" Sample.plain = Some Sample.plain_article
  /\ title Sample.plain_metadata = "A plain record".
Proof.
  split; [reflexivity|]. split; [reflexivity|].
  exact (proj1 (title_of_parsed_record Sample.plain Sample.plain_article
                  Sample.plain_metadata eq_refl eq_refl)).
Defined.

Lemma article_id_fold_none (root : Element) :
  (ET.find_desc "ArticleIdList" root = None ->
   parsed_ids root = (Some "", Some ""))
  /\ (forall article_id_list,
         ET.find_desc "ArticleIdList" root = Some article_id_list ->
         (filter (id_type_is "doi") (ET.findall "ArticleId" article_id_list) = [] ->
          fst (parsed_ids root) = Some "")
         /\ (filter (id_type_is "pmc") (ET.findall "ArticleId" article_id_list) = [] ->
             snd (parsed_ids root) = Some "")).
Proof.
  unfold parsed_ids. split.
  - now intros ->.
  - intros l ->.
    destruct (article_id_fold (ET.findall "ArticleId" l) (Some "", Some ""))
      as [Hd Hp].
    split; intros Hnone; [rewrite Hd | rewrite Hp]; now rewrite Hnone.
Qed.

(** A field whose source element is missing is the empty string. *)
Lemma missing_elements_give_empty_strings (root article : Element) (m : Metadata) :
  parse_metadata_root root = Some m ->
  ET.find_desc "Article" root = Some article ->
  (ET.find_desc "Journal" article = None -> journal m = Some "")
  /\ (forall journal_elem,
         ET.find_desc "Journal" article = Some journal_elem ->
         ET.find_desc "Title" journal_elem = None -> journal m = Some "")
  /\ (ET.find_desc "PubDate" article = None -> year m = Some "")
  /\ (forall pub_date,
         ET.find_desc "PubDate" article = Some pub_date ->
         ET.find "Year" pub_date = None -> year m = Some "")
  /\ (ET.find_desc "ArticleIdList" root = None ->
      (doi m, pmc_id m) = (Some "", Some ""))
  /\ (forall article_id_list,
         ET.find_desc "ArticleIdList" root = Some article_id_list ->
         (filter (id_type_is "doi") (ET.findall "ArticleId" article_id_list) = [] ->
          doi m = Some "")
         /\ (filter (id_type_is "pmc") (ET.findall "ArticleId" article_id_list) = [] ->
             pmc_id m = Some "")).
Proof.
  unfold parse_metadata_root. intros Hm Harticle.
  rewrite Harticle in Hm. injection Hm as <-. simpl.
  fold (parsed_ids root).
  destruct (article_id_fold_none root) as [Hnone Hsome].
  repeat apply conj.
  - now intros ->.
  - now intros j -> ->.
  - now intros ->.
  - now intros d -> ->.
  - intros Habsent. now rewrite Hnone.
  - intros l Hl. specialize (Hsome l Hl). tauto.
Qed.

(** C4: the code departs from the claim.  An element that is present and
    empty ([<Title/>], [<Year/>], [<ArticleId IdType='doi'/>]) has the
    text [None], and the parser stores it: the four fields of the record
    returned for such a document are [None], not strings. *)
Theorem empty_elements_give_None :
  parse_metadata (ext := Sample.env) "<empty_fields/>"
  = Some {| title := "Empty fields"; abstract := ""; authors := [];
            journal := None; year := None; doi := None; pmc_id := None |}.
Proof. reflexivity. Qed.

(* ----------------------------------------------------------------- *)
(** ** The file store *)

Module FSFacts.

Lemma path_eqb_eq (p q : path) : path_eqb p q = true <-> p = q.
Proof.
  destruct p as [n s|f], q as [m t|g]; simpl; split; try discriminate.
  - intros [Hn Hs]%andb_prop.
    apply Nat.eqb_eq in Hn. apply String.eqb_eq in Hs. now subst.
  - intros [= -> ->]. now rewrite Nat.eqb_refl, String.eqb_refl.
  - intros Hf. apply String.eqb_eq in Hf. now subst.
  - intros [= ->]. apply String.eqb_refl.
Qed.

Lemma path_eqb_refl (p : path) : path_eqb p p = true.
Proof. now apply path_eqb_eq. Qed.

Lemma path_eqb_neq (p q : path) : p <> q -> path_eqb p q = false.
Proof.
  intros Hne. destruct (path_eqb p q) eqn:E; [|reflexivity].
  now apply path_eqb_eq in E.
Qed.

Lemma lookup_head (p : path) (c : string) (fs : list (path * string)) :
  FS.lookup p ((p, c) :: fs) = Some c.
Proof. simpl. now rewrite path_eqb_refl. Qed.

Lemma lookup_other (p q : path) (c : string) (fs : list (path * string)) :
  q <> p -> FS.lookup p ((q, c) :: fs) = FS.lookup p fs.
Proof. intros Hne. cbn [FS.lookup]. now rewrite (path_eqb_neq q p Hne). Qed.

Lemma lookup_remove (p q : path) (fs : list (path * string)) :
  FS.lookup p (FS.remove q fs)
  = if path_eqb q p then None else FS.lookup p fs.
Proof.
  induction fs as [|[r c] fs IH]; simpl.
  - now destruct (path_eqb q p).
  - destruct (path_eqb r q) eqn:Hrq; simpl.
    + apply path_eqb_eq in Hrq. subst r. rewrite IH.
      now destruct (path_eqb q p).
    + destruct (path_eqb r p) eqn:Hrp; [|exact IH].
      apply path_eqb_eq in Hrp. subst r.
      destruct (path_eqb q p) eqn:Hqp; [|reflexivity].
      apply path_eqb_eq in Hqp. subst q.
      now rewrite path_eqb_refl in Hrq.
Qed.

Lemma tmp_txt_neq_pdf (w : World) : tmp_txt w <> tmp_pdf w.
Proof. unfold tmp_txt, tmp_pdf. congruence. Qed.

End FSFacts.
Import FSFacts.

(* ----------------------------------------------------------------- *)
(** ** Binary-document converter *)

Section Converter.
Context {ext : Externals}.

(** What [convert_pdf_to_text] returns, and the files it leaves, for each
    way the tool can end. *)
Lemma convert_pdf_to_text_run (pdf_content : string) (w : World) :
  let r := convert_pdf_to_text pdf_content w in
  match pdftotext pdf_content with
  | Exited rc out =>
      if Z.eqb rc 0 then
        fst r = Ok (if Nat.ltb 500 (String.length out) then Some out else None)
        /\ files (snd r)
           = FS.remove (tmp_txt w)
               (FS.remove (tmp_pdf w)
                  ((tmp_txt w, out) :: FS.remove (tmp_txt w) (staged pdf_content w)))
      else
        fst r = Ok None
        /\ files (snd r)
           = (tmp_txt w, out) :: FS.remove (tmp_txt w) (staged pdf_content w)
  | RunRaises =>
      fst r = Ok None /\ files (snd r) = staged pdf_content w
  end.
Proof.
  unfold convert_pdf_to_text, try_except, bind, NamedTemporaryFile,
    write_file, subprocess_run, read_file, unlink, ret, set_files.
  cbn [files tmp_serial requests sleeps fst snd].
  fold (tmp_pdf w). fold (tmp_txt w). fold (staged pdf_content w).
  assert (Hpdf : FS.lookup (tmp_pdf w) (staged pdf_content w) = Some pdf_content).
  { unfold staged. rewrite lookup_other by apply tmp_txt_neq_pdf.
    apply lookup_head. }
  rewrite Hpdf.
  destruct (pdftotext pdf_content) as [rc out|]; cbn [fst snd files].
  - destruct (Z.eqb rc 0); cbn [fst snd files].
    + rewrite lookup_head. cbn [fst snd files]. now split.
    + now split.
  - now split.
Qed.

(** On the path where the tool exits with code 0 and its output is read,
    neither transient file is left. *)
Lemma convert_pdf_to_text_cleans_up_on_success (pdf_content out : string) (w : World) :
  pdftotext pdf_content = Exited 0 out ->
  let fs := files (snd (convert_pdf_to_text pdf_content w)) in
  FS.exists_ (tmp_pdf w) fs = false /\ FS.exists_ (tmp_txt w) fs = false.
Proof.
  intros Htool. pose proof (convert_pdf_to_text_run pdf_content w) as Hrun.
  rewrite Htool in Hrun. cbn [Z.eqb] in Hrun. destruct Hrun as [_ Hfiles].
  cbn zeta. rewrite Hfiles. unfold FS.exists_.
  rewrite !lookup_remove, !path_eqb_refl.
  now destruct (path_eqb (tmp_txt w) (tmp_pdf w)).
Qed.

(** On the other paths both transient files are left on disk. *)
Lemma convert_pdf_to_text_leaves_files_on_failure (pdf_content : string) (w : World) :
  (forall out, pdftotext pdf_content <> Exited 0 out) ->
  let r := convert_pdf_to_text pdf_content w in
  fst r = Ok None
  /\ FS.exists_ (tmp_pdf w) (files (snd r)) = true
  /\ FS.exists_ (tmp_txt w) (files (snd r)) = true.
Proof.
  intros Hfail. pose proof (convert_pdf_to_text_run pdf_content w) as Hrun.
  cbn zeta in *. unfold FS.exists_.
  assert (Hstaged_pdf : FS.lookup (tmp_pdf w) (staged pdf_content w) = Some pdf_content).
  { unfold staged. rewrite lookup_other by apply tmp_txt_neq_pdf.
    apply lookup_head. }
  destruct (pdftotext pdf_content) as [rc out|].
  - destruct (Z.eqb rc 0) eqn:Hrc.
    + apply Z.eqb_eq in Hrc. subst rc. now destruct (Hfail out).
    + destruct Hrun as [-> ->]. split; [reflexivity|].
      rewrite lookup_head, lookup_other by apply tmp_txt_neq_pdf.
      rewrite lookup_remove, (path_eqb_neq _ _ (tmp_txt_neq_pdf w)), Hstaged_pdf.
      now split.
  - destruct Hrun as [-> ->]. split; [reflexivity|].
    rewrite Hstaged_pdf. unfold staged. rewrite lookup_head. now split.
Qed.

End Converter.

(** C2: the code departs from the claim.  The two [unlink] calls stand
    on the success path only: when the tool exits with a non-zero code,
    and when running it raises, the call returns [None] and both
    transient files are still on disk. *)
Theorem convert_pdf_to_text_leaks_transient_files :
  let failed := convert_pdf_to_text (ext := Sample.env) "not a PDF" Sample.w0 in
  let raised := convert_pdf_to_text (ext := Sample.env) "%PDF slow" Sample.w0 in
  (pdftotext (Externals := Sample.env) "not a PDF" = Exited 1 ""
   /\ fst failed = Ok None
   /\ files (snd failed) = [(TmpFile 1 ".txt", ""); (TmpFile 0 ".pdf", "not a PDF")])
  /\ (pdftotext (Externals := Sample.env) "%PDF slow" = RunRaises
      /\ fst raised = Ok None
      /\ files (snd raised) = [(TmpFile 1 ".txt", ""); (TmpFile 0 ".pdf", "%PDF slow")]).
Proof. repeat split; reflexivity. Qed.

(* ----------------------------------------------------------------- *)
(** ** The minimum-content threshold *)

Lemma threshold_present (t : string) :
  present_iff_longer_than 500 t
    (if Nat.ltb 500 (String.length t) then Some t else None).
Proof.
  unfold present_iff_longer_than.
  destruct (Nat.ltb 500 (String.length t)) eqn:E.
  - apply Nat.ltb_lt in E. split; [reflexivity|lia].
  - apply Nat.ltb_ge in E. split; [lia|reflexivity].
Qed.

Lemma threshold_long (t r : string) :
  (if Nat.ltb 500 (String.length t) then Some t else None) = Some r ->
  500 < String.length r.
Proof.
  destruct (Nat.ltb 500 (String.length t)) eqn:E; [|discriminate].
  intros [= <-]. now apply Nat.ltb_lt.
Qed.

Lemma status_ok_passes (response : Response) :
  status_ok response ->
  (Z.leb 400 (status_code response) && Z.ltb (status_code response) 600)%bool = false.
Proof.
  unfold status_ok. intros [Hlow|Hhigh].
  - apply andb_false_intro1. now apply Z.leb_gt.
  - apply andb_false_intro2. now apply Z.ltb_ge.
Qed.

Section Threshold.
Context {ext : Externals}.

(** Whatever the input, an extractor never returns a text of 500
    characters or fewer. *)
Lemma extractors_never_return_short_text :
  (forall html t, extract_text_from_html html = Some t -> 500 < String.length t)
  /\ (forall pmc_id w t,
         fst (fetch_from_pmc pmc_id w) = Ok (Some t) -> 500 < String.length t)
  /\ (forall pdf_content w t,
         fst (convert_pdf_to_text pdf_content w) = Ok (Some t) ->
         500 < String.length t).
Proof.
  repeat apply conj.
  - intros html t. unfold extract_text_from_html.
    destruct (BeautifulSoup html); [apply threshold_long|discriminate].
  - intros [id|] w t; [|discriminate].
    unfold fetch_from_pmc. destruct (truthy id); [|discriminate]. cbn [negb].
    unfold try_except, bind, http_get, raise_for_status, lift, ret, raise.
    destruct (session_get _ _) as [response|]; [|discriminate].
    destruct (Z.leb 400 _ && Z.ltb _ 600)%bool; [discriminate|].
    destruct (fromstring _); [|discriminate].
    cbn [fst]. intros [= Ht]. exact (threshold_long _ _ Ht).
  - intros pdf_content w t.
    pose proof (convert_pdf_to_text_run pdf_content w) as Hrun. cbn zeta in Hrun.
    destruct (pdftotext pdf_content) as [rc out|].
    + destruct (Z.eqb rc 0); destruct Hrun as [-> _];
        [intros [= Ht]; exact (threshold_long _ _ Ht)|discriminate].
    + destruct Hrun as [-> _]. discriminate.
Qed.

End Threshold.

(** C1, as stated, fails: a cleaned text of exactly 500 characters is
    rejected by each of the three extractors. *)
Lemma text_of_500_characters_is_rejected :
  (String.length (pmc_clean_text (Sample.full_text_record 483)) = 500
   /\ fst (fetch_from_pmc (ext := Sample.env) (Some "PMC500") Sample.w0) = Ok None)
  /\ (String.length (html_clean_text (Sample.page 500)) = 500
      /\ extract_text_from_html (ext := Sample.env) "<page n='500'>" = None)
  /\ (pdftotext (Externals := Sample.env) "%PDF 500" = Exited 0 (str_mul "a" 500)
      /\ String.length (str_mul "a" 500) = 500
      /\ fst (convert_pdf_to_text (ext := Sample.env) "%PDF 500" Sample.w0) = Ok None).
Proof. vm_compute. repeat split; reflexivity. Qed.

(** C1, amended: for each of the three extractors, on the path where the
    source could be read, the cleaned text is returned as present exactly
    when it is longer than 500 characters: 501 characters are accepted,
    500 and fewer yield the absent result. *)
Theorem threshold_is_strict {ext : Externals}
        (html : string) (soup : Soup)
        (pmc_id : string) (response : Response) (root : Element)
        (pdf_content out : string) (w : World) :
  BeautifulSoup html = Some soup ->
  truthy pmc_id = true ->
  session_get (requests w) (pmc_request pmc_id) = Some response ->
  status_ok response ->
  fromstring (resp_text response) = Some root ->
  pdftotext pdf_content = Exited 0 out ->
  present_iff_longer_than 500 (html_clean_text soup)
                          (extract_text_from_html html)
  /\ (exists r, fst (fetch_from_pmc (Some pmc_id) w) = Ok r
               /\ present_iff_longer_than 500 (pmc_clean_text root) r)
  /\ (exists r, fst (convert_pdf_to_text pdf_content w) = Ok r
               /\ present_iff_longer_than 500 out r).
Proof.
  intros Hsoup Hid Hget Hstatus Hroot Htool. split; [|split].
  - unfold extract_text_from_html. rewrite Hsoup. apply threshold_present.
  - unfold fetch_from_pmc. rewrite Hid. cbn [negb].
    unfold try_except, bind, http_get, raise_for_status, lift, ret, raise.
    fold (pmc_request pmc_id). rewrite Hget, (status_ok_passes _ Hstatus), Hroot.
    cbn [fst]. eexists. split; [reflexivity|apply threshold_present].
  - pose proof (convert_pdf_to_text_run pdf_content w) as Hrun. cbn zeta in Hrun.
    rewrite Htool in Hrun. cbn [Z.eqb] in Hrun. destruct Hrun as [-> _].
    eexists. split; [reflexivity|apply threshold_present].
Qed.

Lemma threshold_is_strict_witness :
  present_iff_longer_than 500 (html_clean_text (Sample.page 501))
    (extract_text_from_html (ext := Sample.env) "<page n='501'>")
  /\ (exists r,
         fst (fetch_from_pmc (ext := Sample.env) (Some "PMC501") Sample.w0) = Ok r
         /\ present_iff_longer_than 500
              (pmc_clean_text (Sample.full_text_record 484)) r)
  /\ (exists r,
         fst (convert_pdf_to_text (ext := Sample.env) "%PDF 501" Sample.w0) = Ok r
         /\ present_iff_longer_than 500 (str_mul "a" 501) r).
Proof.
  exact (threshold_is_strict (ext := Sample.env)
           "<page n='501'>" (Sample.page 501)
           "PMC501" (mkResponse 200 "<full_text pad='484'/>")
           (Sample.full_text_record 484)
           "%PDF 501" (str_mul "a" 501) Sample.w0
           eq_refl eq_refl eq_refl (or_introl eq_refl) eq_refl eq_refl).
Defined.

(* ----------------------------------------------------------------- *)
(** ** DOI-based extractor *)

Section Resolver.
Context {ext : Externals}.

(** One iteration of the loop of [fetch_from_doi]: the request is sent;
    a response with status 200 ends the call with the result of the HTML
    extractor, anything else passes to the next URL. *)
Lemma try_sources_step (url : string) (rest : list string) (w : World) :
  try_sources (url :: rest) w
  = match session_get (requests w) (mkRequest url []) with
    | Some response =>
        if Z.eqb (status_code response) 200
        then (Ok (extract_text_from_html (resp_text response)),
              sent [mkRequest url []] w)
        else try_sources rest (sent [mkRequest url []] w)
    | None => try_sources rest (sent [mkRequest url []] w)
    end.
Proof.
  cbn [try_sources]. unfold bind, try_except, http_get, ret. fold (sent [mkRequest url []] w).
  destruct (session_get (requests w) (mkRequest url [])) as [response|];
    [|reflexivity].
  now destruct (Z.eqb (status_code response) 200).
Qed.

Lemma try_sources_last_requests (url : string) (w : World) :
  requests (snd (try_sources [url] w)) = (requests w ++ [mkRequest url []])%list.
Proof.
  rewrite try_sources_step. cbn [try_sources]. unfold ret.
  destruct (session_get (requests w) (mkRequest url [])) as [response|];
    [|reflexivity].
  now destruct (Z.eqb (status_code response) 200).
Qed.

End Resolver.

(** C10: with a non-empty DOI, when the first target answers with status
    200 the call returns what the HTML extractor makes of that response,
    absent result included, and the first request is the only one sent;
    the second target is requested exactly when the first request raised
    or answered with another status. *)
Theorem fetch_from_doi_commits_to_first_200 {ext : Externals}
        (doi : string) (w : World) :
  truthy doi = true ->
  (forall response,
      session_get (requests w) (doi_first doi) = Some response ->
      status_code response = 200%Z ->
      fetch_from_doi (Some doi) w
      = (Ok (extract_text_from_html (resp_text response)),
         sent [doi_first doi] w))
  /\ (requests (snd (fetch_from_doi (Some doi) w))
      = (requests w ++ [doi_first doi; doi_second doi])%list
      <-> ~ (exists response,
                session_get (requests w) (doi_first doi) = Some response
                /\ status_code response = 200%Z)).
Proof.
  intros Hdoi. unfold fetch_from_doi. rewrite Hdoi. cbn [negb].
  unfold doi_sources, doi_first, doi_second.
  set (url1 := "https://doi.org/" ++ doi).
  set (url2 := "https://www.ncbi.nlm.nih.gov/pmc/articles/pmid/" ++ doi ++ "/").
  rewrite (try_sources_step url1).
  assert (Hsecond :
            requests (snd (try_sources [url2] (sent [mkRequest url1 []] w)))
            = (requests w ++ [mkRequest url1 []; mkRequest url2 []])%list).
  { rewrite try_sources_last_requests. cbn [sent requests].
    now rewrite <- app_assoc. }
  destruct (session_get (requests w) (mkRequest url1 [])) as [response|].
  - destruct (Z.eqb (status_code response) 200) eqn:Hstatus.
    + apply Z.eqb_eq in Hstatus. split.
      * now intros r [= <-] _.
      * cbn [snd sent requests]. split.
        -- intros Heq. apply app_inv_head in Heq. discriminate.
        -- intros Hnot. exfalso. apply Hnot. now exists response.
    + apply Z.eqb_neq in Hstatus. split.
      * intros r [= <-] H200. contradiction.
      * split; [|intros _; exact Hsecond].
        intros _ [r [[= <-] H200]]. contradiction.
  - split; [discriminate|].
    split; [|intros _; exact Hsecond].
    intros _ [r [Hr _]]. discriminate.
Qed.

Lemma fetch_from_doi_commits_to_first_200_witness :
  fetch_from_doi (ext := Sample.env) (Some "10.1000/short") Sample.w0
  = (Ok None, sent [doi_first "10.1000/short"] Sample.w0).
Proof.
  exact (proj1 (fetch_from_doi_commits_to_first_200 (ext := Sample.env)
                  "10.1000/short" Sample.w0 eq_refl)
               (mkResponse 200 "<page n='40'>") eq_refl eq_refl).
Defined.

(* ----------------------------------------------------------------- *)
(** ** Record serializer *)

Lemma strings_of_strings (names : list string) :
  strings_of (map Some names) = Ok names.
Proof.
  induction names as [|s names IH]; simpl; [reflexivity|]. now rewrite IH.
Qed.

Lemma write_file_lookup (p : path) (content : string) (w : World) :
  FS.lookup p (files (snd (write_file p content w))) = Some content.
Proof. unfold write_file, set_files. cbn [snd files]. apply lookup_head. Qed.

(** C8: for a record with empty DOI, journal and year, a non-empty
    abstract [X] and no full text, the document consists of the
    identifier line, the title line, the authors line if there are
    authors, the rule, and the ["ABSTRACT:"] heading followed by exactly
    [X]; there is no journal line and no DOI line.  [save_article] writes
    these parts, joined by blank lines, to the file named from the
    identifier and the title, unless opening that file raises, in which
    case nothing is written. *)
Theorem abstract_only_document {ext : Externals} (pmid ttl X : string)
        (names : list string) (repository_id : option string) (w : World) :
  X <> "" ->
  let metadata :=
    {| title := ttl; abstract := X; authors := map Some names;
       journal := Some ""; year := Some ""; doi := Some "";
       pmc_id := repository_id |} in
  let parts :=
    List.app ["PubMed ID: " ++ pmid; "Title: " ++ ttl]
      (List.app (if nonempty names then ["Authors: " ++ join ", " names] else [])
                [rule_line; "ABSTRACT:" ++ nl; X]) in
  let filepath := OutFile ("PMID_" ++ pmid ++ "_" ++ clean_filename ttl ++ ".txt") in
  content_parts pmid metadata None = Ok parts
  /\ save_article pmid metadata None w
     = match open_error filepath with
       | None =>
           (Ok filepath,
            set_files ((filepath, join (nl ++ nl) parts)
                         :: FS.remove filepath (files w)) w)
       | Some e => (Raise e, w)
       end.
Proof.
  intros HX metadata parts filepath.
  assert (Hparts : content_parts pmid metadata None = Ok parts).
  { unfold content_parts, metadata, parts, join_items.
    cbn [authors journal year doi abstract title truthy_opt truthy].
    rewrite strings_of_strings.
    apply truthy_nonempty in HX. rewrite HX.
    now destruct names. }
  split; [exact Hparts|].
  unfold save_article, bind, lift. rewrite Hparts.
  cbn [title metadata]. fold metadata. fold filepath.
  unfold open_and_write. now destruct (open_error filepath).
Qed.

Lemma abstract_only_document_witness :
  let metadata :=
    {| title := "A plain record"; abstract := "X";
       authors := [Some "Ada Lovelace"; Some "Byron"];
       journal := Some ""; year := Some ""; doi := Some ""; pmc_id := None |} in
  let parts :=
    ["PubMed ID: 2"; "Title: A plain record"; "Authors: Ada Lovelace, Byron";
     rule_line; "ABSTRACT:" ++ nl; "X"] in
  content_parts "2" metadata None = Ok parts
  /\ save_article (ext := Sample.env) "2" metadata None Sample.w0
     = (Ok (OutFile "PMID_2_A_plain_record.txt"),
        set_files [(OutFile "PMID_2_A_plain_record.txt", join (nl ++ nl) parts)]
                  Sample.w0).
Proof.
  assert (Hne : "X" <> "") by discriminate.
  exact (abstract_only_document (ext := Sample.env) "2" "A plain record" "X"
           ["Ada Lovelace"; "Byron"] None Sample.w0 Hne).
Defined.

(* ----------------------------------------------------------------- *)
(** ** Orchestrator *)

Section Orchestrator.
Context {ext : Externals}.

(** The extractors return; they do not raise. *)
Lemma fetch_from_pmc_returns (pmc_id : option string) (w : World) :
  exists r, fst (fetch_from_pmc pmc_id w) = Ok r.
Proof.
  unfold fetch_from_pmc. destruct pmc_id as [id|]; [|now exists None].
  destruct (truthy id); cbn [negb]; [|now exists None].
  unfold try_except, bind, http_get, raise_for_status, lift, ret, raise.
  destruct (session_get _ _) as [response|]; [|now exists None].
  destruct (Z.leb 400 _ && Z.ltb _ 600)%bool; [now exists None|].
  destruct (fromstring _); cbn [fst]; eauto.
Qed.

Lemma try_sources_returns (sources : list string) (w : World) :
  exists r, fst (try_sources sources w) = Ok r.
Proof.
  revert w. induction sources as [|url rest IH]; intros w.
  - now exists None.
  - rewrite try_sources_step.
    destruct (session_get _ _) as [response|]; [|apply IH].
    destruct (Z.eqb _ 200); [cbn [fst]; eauto|apply IH].
Qed.

Lemma fetch_from_doi_returns (doi : option string) (w : World) :
  exists r, fst (fetch_from_doi doi w) = Ok r.
Proof.
  unfold fetch_from_doi. destruct doi as [d|]; [|now exists None].
  destruct (truthy d); cbn [negb]; [apply try_sources_returns|now exists None].
Qed.

Lemma fetch_article_metadata_returns (pmid : string) (w : World) :
  exists r, fst (fetch_article_metadata pmid w) = Ok r.
Proof.
  unfold fetch_article_metadata, try_except, bind, http_get, raise_for_status,
    ret, raise.
  destruct (session_get _ _) as [response|]; [|now exists None].
  destruct (Z.leb 400 _ && Z.ltb _ 600)%bool; cbn [fst]; eauto.
Qed.

(** Building the document raises exactly when an author name is [None]. *)
Lemma content_parts_raises (pmid : string) (m : Metadata) (full_text : option string) :
  match strings_of (authors m) with
  | Ok _ => exists parts, content_parts pmid m full_text = Ok parts
  | Raise e => content_parts pmid m full_text = Raise e
  end.
Proof.
  unfold content_parts, join_items.
  destruct (authors m) as [|a r] eqn:Hauthors.
  - cbn. eauto.
  - cbn [nonempty]. destruct (strings_of (a :: r)); eauto.
Qed.

(** Without metadata, [process_pmid] returns [False] right after the
    metadata request: nothing else is requested, nothing is written.
    With metadata it does not return [False]: it returns [True], unless
    building the document or opening its file raises. *)
Lemma process_pmid_outcome (pmid : string) (w : World) :
  match metadata_of pmid w with
  | None => process_pmid pmid w = (Ok false, snd (fetch_article_metadata pmid w))
  | Some m =>
      fst (process_pmid pmid w)
      = match strings_of (authors m) with
        | Ok _ =>
            match open_error (document_path pmid m) with
            | None => Ok true
            | Some e => Raise e
            end
        | Raise e => Raise e
        end
  end.
Proof.
  unfold metadata_of, process_pmid, bind.
  destruct (fetch_article_metadata_returns pmid w) as [xml_data Hfetch].
  destruct (fetch_article_metadata pmid w) as [r w1]. cbn [fst snd] in *. subst r.
  destruct xml_data as [xml|]; [|reflexivity].
  destruct (truthy xml); cbn [negb]; [|reflexivity].
  destruct (parse_metadata xml) as [m|]; [|reflexivity].
  set (first := if truthy_opt (pmc_id m) then fetch_from_pmc (pmc_id m) else ret None).
  assert (Hfirst : exists r, fst (first w1) = Ok r).
  { unfold first. destruct (truthy_opt (pmc_id m));
      [apply fetch_from_pmc_returns|now exists None]. }
  destruct Hfirst as [t1 Hfirst].
  destruct (first w1) as [r w2]. cbn [fst] in Hfirst. subst r.
  set (second := if negb (truthy_opt t1) && truthy_opt (doi m)
                 then fetch_from_doi (doi m) else ret t1).
  assert (Hsecond : exists r, fst (second w2) = Ok r).
  { unfold second. destruct (negb (truthy_opt t1) && truthy_opt (doi m))%bool;
      [apply fetch_from_doi_returns|now exists t1]. }
  destruct Hsecond as [t2 Hsecond].
  destruct (second w2) as [r w3]. cbn [fst] in Hsecond. subst r.
  unfold save_article, bind, lift. fold (document_path pmid m).
  pose proof (content_parts_raises pmid m t2) as Hparts.
  destruct (strings_of (authors m)).
  - destruct Hparts as [parts ->]. unfold open_and_write.
    now destruct (open_error (document_path pmid m)).
  - rewrite Hparts. reflexivity.
Qed.

End Orchestrator.

(** C6: the code departs from the claim.  For the record below the
    metadata is fetched and parsed, and [process_pmid] does not return
    [True]: the author's last name is an empty element, the parser stores
    its text [None] as the author's name, and [', '.join] in
    [save_article] raises [TypeError]; the batch driver counts the
    identifier as failed. *)
Theorem process_pmid_fails_with_parsed_metadata :
  fst (fetch_article_metadata (ext := Sample.env) "1" Sample.w0)
  = Ok (Some "<empty_last_name/>")
  /\ parse_metadata (ext := Sample.env) "<empty_last_name/>"
     = Some {| title := "A study"; abstract := ""; authors := [None];
               journal := Some ""; year := Some ""; doi := Some "";
               pmc_id := Some "" |}
  /\ fst (process_pmid (ext := Sample.env) "1" Sample.w0) = Raise TypeError
  /\ fst (process_pmid_list (ext := Sample.env) ["1"] Sample.default_delay Sample.w0)
     = Ok {| total := 1; success_count := 0; fail_count := 1 |}.
Proof. repeat split; reflexivity. Qed.

(* ----------------------------------------------------------------- *)
(** ** Batch driver *)

Section Batch.
Context {ext : Externals}.

(** One identifier moves exactly one counter by one: the success counter
    when [process_pmid] returns [True], the failure counter when it
    returns [False] and when it raises. *)
Lemma count_pmid_counts (pmid : string) (counts : nat * nat) (w : World) :
  fst (count_pmid pmid counts w)
  = Ok (match fst (process_pmid pmid w) with
        | Ok true => (S (fst counts), snd counts)
        | _ => (fst counts, S (snd counts))
        end).
Proof.
  unfold count_pmid, try_except, bind, ret.
  now destruct (process_pmid pmid w) as [[[|]|e] w'].
Qed.

Lemma count_pmid_world (pmid : string) (counts : nat * nat) (w : World) :
  snd (count_pmid pmid counts w) = snd (process_pmid pmid w).
Proof.
  unfold count_pmid, try_except, bind, ret.
  now destruct (process_pmid pmid w) as [[[|]|e] w'].
Qed.

Lemma batch_outcomes_length (n : nat) (pmids : list string) :
  forall (i : nat) (w : World),
    List.length (batch_outcomes n i pmids w) = List.length pmids.
Proof.
  induction pmids as [|pmid rest IH]; intros i w; [reflexivity|].
  cbn [batch_outcomes List.length]. now rewrite IH.
Qed.

(** When the loop returns, its counters have grown by the number of
    identifiers for which [process_pmid] returned [True], and by the
    number of the others. *)
Lemma batch_loop_counts (n : nat) (pmids : list string) (delay : Delay) :
  forall (i : nat) (counts counts' : nat * nat) (w : World),
    fst (batch_loop n i pmids delay counts w) = Ok counts' ->
    fst counts' = fst counts
                  + List.length (filter returned_true (batch_outcomes n i pmids w))
    /\ snd counts' = snd counts
                     + List.length (filter (fun r => negb (returned_true r))
                                           (batch_outcomes n i pmids w)).
Proof.
  induction pmids as [|pmid rest IH]; intros i counts counts' w.
  - cbn. intros [= <-]. lia.
  - cbn [batch_loop batch_outcomes]. unfold bind at 1.
    pose proof (count_pmid_counts pmid counts w) as Hcount.
    pose proof (count_pmid_world pmid counts w) as Hworld.
    destruct (count_pmid pmid counts w) as [r w1]. cbn [fst snd] in *.
    subst r w1. unfold bind at 1.
    set (w1 := snd (process_pmid pmid w)).
    assert (Hstep :
              forall w2,
                fst (batch_loop n (S i) rest delay
                       (match fst (process_pmid pmid w) with
                        | Ok true => (S (fst counts), snd counts)
                        | _ => (fst counts, S (snd counts))
                        end) w2) = Ok counts' ->
                fst counts' = fst counts
                  + List.length
                      (filter returned_true
                         (fst (process_pmid pmid w) :: batch_outcomes n (S i) rest w2))
                /\ snd counts' = snd counts
                  + List.length
                      (filter (fun r => negb (returned_true r))
                         (fst (process_pmid pmid w) :: batch_outcomes n (S i) rest w2))).
    { intros w2 Hrest. apply IH in Hrest. cbn [filter].
      destruct (fst (process_pmid pmid w)) as [[|]|e];
        cbn [returned_true negb List.length fst snd] in *; lia. }
    destruct (Nat.ltb i n).
    + unfold sleep. destruct (sleep_error delay); [discriminate|]. apply Hstep.
    + unfold ret at 1. apply Hstep.
Qed.

(** The loop returns when the pause is accepted, and when no pause is
    due. *)
Lemma batch_loop_returns (n : nat) (pmids : list string) (delay : Delay) :
  forall (i : nat) (counts : nat * nat) (w : World),
    sleep_error delay = None \/ n <= i ->
    exists counts', fst (batch_loop n i pmids delay counts w) = Ok counts'.
Proof.
  induction pmids as [|pmid rest IH]; intros i counts w Hpause.
  - now exists counts.
  - cbn [batch_loop]. unfold bind at 1.
    pose proof (count_pmid_counts pmid counts w) as Hcount.
    destruct (count_pmid pmid counts w) as [r w1]. cbn [fst] in Hcount. subst r.
    unfold bind at 1.
    assert (Hnext : sleep_error delay = None \/ n <= S i) by (destruct Hpause; [now left|right; lia]).
    destruct (Nat.ltb i n) eqn:Hlt.
    + apply Nat.ltb_lt in Hlt. destruct Hpause as [Hok|Hle]; [|lia].
      unfold sleep. rewrite Hok. now apply IH.
    + unfold ret at 1. now apply IH.
Qed.

(** A pause that is due and refused ends the loop with its exception. *)
Lemma batch_loop_aborts (n : nat) (pmid : string) (rest : list string)
      (delay : Delay) (e : exn) (i : nat) (counts : nat * nat) (w : World) :
  sleep_error delay = Some e -> i < n ->
  batch_loop n i (pmid :: rest) delay counts w = (Raise e, snd (process_pmid pmid w)).
Proof.
  intros Hrefused Hlt. cbn [batch_loop]. unfold bind at 1.
  pose proof (count_pmid_counts pmid counts w) as Hcount.
  pose proof (count_pmid_world pmid counts w) as Hworld.
  destruct (count_pmid pmid counts w) as [r w1]. cbn [fst snd] in *. subst r w1.
  unfold bind at 1. apply Nat.ltb_lt in Hlt. rewrite Hlt.
  unfold sleep. now rewrite Hrefused.
Qed.

Lemma process_pmid_list_result (lines : list string) (delay : Delay) (w : World) :
  fst (process_pmid_list lines delay w)
  = match fst (batch_loop (List.length (map strip (filter nonblank lines))) 1
                          (map strip (filter nonblank lines)) delay (0, 0) w) with
    | Ok counts =>
        Ok {| total := List.length (map strip (filter nonblank lines));
              success_count := fst counts; fail_count := snd counts |}
    | Raise e => Raise e
    end.
Proof.
  unfold process_pmid_list, bind. fold nonblank.
  now destruct (batch_loop _ 1 _ delay (0, 0) w) as [[counts|e] w'].
Qed.

End Batch.

(** C9: a run of the batch driver completes, that is returns its tally,
    exactly when no pause is due (at most one identifier) or
    [time.sleep] accepts the delay.  The tally of a run that completes
    adds up: total is the number of non-blank lines, [process_pmid] has
    given one outcome for each of them, succeeded is the number of
    outcomes [True], failed the number of all others, a raised exception
    among them, and succeeded + failed = total. *)
Theorem tally_adds_up {ext : Externals} (lines : list string) (delay : Delay)
        (w : World) :
  let n := List.length (filter nonblank lines) in
  ((exists t, fst (process_pmid_list lines delay w) = Ok t)
   <-> n <= 1 \/ sleep_error delay = None)
  /\ (forall t,
         fst (process_pmid_list lines delay w) = Ok t ->
         total t = n
         /\ List.length (outcomes lines w) = n
         /\ success_count t
            = List.length (filter returned_true (outcomes lines w))
         /\ fail_count t
            = List.length (filter (fun r => negb (returned_true r))
                                  (outcomes lines w))
         /\ success_count t + fail_count t = total t).
Proof.
  intros n. rewrite process_pmid_list_result.
  unfold outcomes. set (pmids := map strip (filter nonblank lines)).
  assert (Hn : List.length pmids = n) by apply length_map.
  split.
  - split.
    + intros [t Ht].
      destruct (sleep_error delay) as [e|] eqn:Hrefused; [|now right]. left.
      destruct pmids as [|pmid rest] eqn:Hpmids; [cbn in Hn; lia|].
      destruct (Nat.le_gt_cases n 1) as [Hle|Hgt]; [exact Hle|].
      rewrite (batch_loop_aborts _ pmid rest delay e 1 (0, 0) w Hrefused) in Ht
        by (rewrite Hn; lia).
      discriminate.
    + intros Hpause.
      destruct (batch_loop_returns (List.length pmids) pmids delay 1 (0, 0) w)
        as [counts ->]; [rewrite Hn; tauto|eauto].
  - intros t Ht.
    destruct (fst (batch_loop (List.length pmids) 1 pmids delay (0, 0) w))
      as [counts|e] eqn:Hloop; [|discriminate].
    injection Ht as <-. cbn [total success_count fail_count].
    destruct (batch_loop_counts _ pmids delay 1 (0, 0) counts w Hloop) as [Hs Hf].
    pose proof (batch_outcomes_length (List.length pmids) pmids 1 w) as Hlen.
    pose proof (filter_length returned_true
                  (batch_outcomes (List.length pmids) 1 pmids w)) as Hsplit.
    cbn [fst snd] in Hs, Hf. repeat split; lia.
Qed.

Lemma tally_adds_up_witness :
  let lines := ["1" ++ nl; nl; " 2 " ++ nl; "3"; "4"] in
  let t := {| total := 4; success_count := 1; fail_count := 3 |} in
  fst (process_pmid_list (ext := Sample.env) lines Sample.default_delay Sample.w0) = Ok t
  /\ outcomes (ext := Sample.env) lines Sample.w0
     = [Raise TypeError; Ok true; Ok false; Ok false]
  /\ success_count t + fail_count t = total t.
Proof.
  intros lines t.
  assert (Hrun : fst (process_pmid_list (ext := Sample.env) lines
                        Sample.default_delay Sample.w0) = Ok t) by reflexivity.
  split; [exact Hrun|]. split; [reflexivity|].
  exact (proj2 (proj2 (proj2 (proj2
           (proj2 (tally_adds_up (ext := Sample.env) lines Sample.default_delay
                     Sample.w0) t Hrun))))).
Defined.

(* ================================================================= *)
(** * Further properties *)

(** ** Requests and the world *)

Module WorldFacts.

Lemma sent_nil (w : World) : sent [] w = w.
Proof. destruct w. unfold sent. cbn. now rewrite app_nil_r. Qed.

Lemma sent_sent (l1 l2 : list Request) (w : World) :
  sent l2 (sent l1 w) = sent (l1 ++ l2)%list w.
Proof. unfold sent. cbn. now rewrite app_assoc. Qed.

End WorldFacts.
Import WorldFacts.

(** X1. [fetch_article_metadata] sends exactly one request, changes
    nothing else, never raises, and returns the body exactly when a
    response came whose status is not in 400..599; a raised request and
    an error status both give [None]. *)
Theorem fetch_article_metadata_result {ext : Externals} (pmid : string) (w : World) :
  snd (fetch_article_metadata pmid w) = sent [metadata_request pmid] w
  /\ (exists r, fst (fetch_article_metadata pmid w) = Ok r)
  /\ (forall body,
         fst (fetch_article_metadata pmid w) = Ok (Some body)
         <-> exists response,
               session_get (requests w) (metadata_request pmid) = Some response
               /\ status_ok response /\ body = resp_text response).
Proof.
  unfold fetch_article_metadata, try_except, bind, http_get, raise_for_status,
    ret, raise.
  fold (metadata_request pmid). fold (sent [metadata_request pmid] w).
  destruct (session_get (requests w) (metadata_request pmid)) as [response|].
  - destruct (Z.leb 400 (status_code response) && Z.ltb (status_code response) 600)%bool
      eqn:Hstatus; cbn [fst snd].
    + split; [reflexivity|]. split; [eauto|]. intros body. split; [discriminate|].
      intros (r & [= <-] & Hok & _).
      now rewrite (status_ok_passes _ Hok) in Hstatus.
    + split; [reflexivity|]. split; [eauto|]. intros body. split.
      * intros [= <-]. exists response. repeat split.
        unfold status_ok. apply andb_false_iff in Hstatus.
        destruct Hstatus as [H|H]; [left; now apply Z.leb_gt|right; now apply Z.ltb_ge].
      * now intros (r & [= <-] & _ & ->).
  - cbn [fst snd]. split; [reflexivity|]. split; [eauto|].
    intros body. split; [discriminate|]. now intros (r & Hr & _).
Qed.

(** X2. [fetch_from_pmc] sends no request when the repository identifier
    is [None] or empty, and exactly one otherwise; it changes nothing else
    in the world. *)
Theorem fetch_from_pmc_requests {ext : Externals} (pmc_id : option string) (w : World) :
  snd (fetch_from_pmc pmc_id w)
  = match pmc_id with
    | Some id => if truthy id then sent [pmc_request id] w else w
    | None => w
    end.
Proof.
  unfold fetch_from_pmc. destruct pmc_id as [id|]; [|reflexivity].
  destruct (truthy id); cbn [negb]; [|reflexivity].
  unfold try_except, bind, http_get, raise_for_status, lift, ret, raise.
  fold (pmc_request id). fold (sent [pmc_request id] w).
  destruct (session_get _ _) as [response|]; [|reflexivity].
  destruct (Z.leb 400 _ && Z.ltb _ 600)%bool; [reflexivity|].
  now destruct (fromstring _).
Qed.

(** X3. The prefix ["PMC"] of a repository identifier is dropped before
    the request: ["PMC" ++ id] and [id] give the same call. *)
Theorem fetch_from_pmc_prefix {ext : Externals} (id : string) (w : World) :
  truthy id = true ->
  fetch_from_pmc (Some ("PMC" ++ id)) w = fetch_from_pmc (Some id) w.
Proof.
  intros Hid. unfold fetch_from_pmc. rewrite Hid. cbn [negb truthy append].
  reflexivity.
Qed.

Lemma fetch_from_pmc_prefix_witness :
  fetch_from_pmc (ext := Sample.env) (Some "PMC501") Sample.w0
  = fetch_from_pmc (ext := Sample.env) (Some "501") Sample.w0.
Proof.
  exact (fetch_from_pmc_prefix (ext := Sample.env) "501" Sample.w0 eq_refl).
Defined.

(** X4. [fetch_from_doi] never raises; with a [None] or empty DOI it
    sends nothing, otherwise it sends the first request alone or the first
    and then the second, in this order, and changes nothing else in the
    world. *)
Theorem fetch_from_doi_requests {ext : Externals} (doi : option string) (w : World) :
  (exists r, fst (fetch_from_doi doi w) = Ok r)
  /\ match doi with
     | Some d =>
         if truthy d
         then snd (fetch_from_doi doi w) = sent [doi_first d] w
              \/ snd (fetch_from_doi doi w) = sent [doi_first d; doi_second d] w
         else snd (fetch_from_doi doi w) = w
     | None => snd (fetch_from_doi doi w) = w
     end.
Proof.
  split; [apply fetch_from_doi_returns|].
  unfold fetch_from_doi. destruct doi as [d|]; [|reflexivity].
  destruct (truthy d); cbn [negb]; [|reflexivity].
  unfold doi_sources, doi_first, doi_second.
  set (url1 := "https://doi.org/" ++ d).
  set (url2 := "https://www.ncbi.nlm.nih.gov/pmc/articles/pmid/" ++ d ++ "/").
  assert (Hsecond : snd (try_sources [url2] (sent [mkRequest url1 []] w))
                    = sent [mkRequest url1 []; mkRequest url2 []] w).
  { rewrite try_sources_step. cbn [try_sources]. unfold ret.
    rewrite sent_sent.
    destruct (session_get _ _) as [response|]; [|reflexivity].
    now destruct (Z.eqb (status_code response) 200). }
  rewrite (try_sources_step url1).
  destruct (session_get (requests w) (mkRequest url1 [])) as [response|];
    [|now right].
  destruct (Z.eqb (status_code response) 200); [now left|now right].
Qed.

(** X5. When the first target fails (the request raises or the status is
    not 200) and the second answers with status 200, the result is what
    the HTML extractor makes of the second response. *)
Theorem fetch_from_doi_falls_back {ext : Externals}
        (doi : string) (second : Response) (w : World) :
  truthy doi = true ->
  (forall first, session_get (requests w) (doi_first doi) = Some first ->
                 status_code first <> 200%Z) ->
  session_get (requests w ++ [doi_first doi]) (doi_second doi) = Some second ->
  status_code second = 200%Z ->
  fst (fetch_from_doi (Some doi) w)
  = Ok (extract_text_from_html (resp_text second)).
Proof.
  intros Hdoi Hfirst Hsecond H200.
  unfold fetch_from_doi. rewrite Hdoi. cbn [negb].
  unfold doi_sources, doi_first, doi_second in *.
  rewrite !try_sources_step. cbn [sent requests].
  rewrite Hsecond, H200. cbn [Z.eqb Pos.eqb].
  destruct (session_get (requests w) _) as [first|]; [|reflexivity].
  specialize (Hfirst first eq_refl). apply Z.eqb_neq in Hfirst.
  now rewrite Hfirst.
Qed.

Lemma fetch_from_doi_falls_back_witness :
  option_map String.length
    (match fst (fetch_from_doi (ext := Sample.env) (Some "10.1000/moved") Sample.w0) with
     | Ok r => r
     | Raise _ => None
     end)
  = Some 501.
Proof.
  assert (Hfirst : forall first,
             session_get (Externals := Sample.env) (requests Sample.w0)
                         (doi_first "10.1000/moved") = Some first ->
             status_code first <> 200%Z).
  { intros first [= <-]. discriminate. }
  rewrite (fetch_from_doi_falls_back (ext := Sample.env) "10.1000/moved"
             (mkResponse 200 "<page n='501'>") Sample.w0
             eq_refl Hfirst eq_refl eq_refl).
  vm_compute. reflexivity.
Defined.

(* ----------------------------------------------------------------- *)
(** ** Extracted text *)

Lemma re_sub_runs_from_single_spaced (in_run : bool) (s : string) :
  single_spaced in_run (re_sub_runs_from isspace " " in_run s) = true.
Proof.
  revert in_run. induction s as [|c s IH]; intros in_run; [reflexivity|].
  cbn [re_sub_runs_from]. destruct (isspace c) eqn:Hc.
  - destruct in_run; [apply IH|].
    change (" " ++ re_sub_runs_from isspace " " true s)
      with (String " " (re_sub_runs_from isspace " " true s)).
    cbn [single_spaced]. change (isspace " ") with true. cbn. apply IH.
  - cbn [single_spaced]. rewrite Hc. apply IH.
Qed.

(** X6. In the text that [fetch_from_pmc] builds, whitespace occurs only
    as single spaces: no tab, line break or other whitespace character is
    left, and no two spaces stand side by side. *)
Theorem pmc_clean_text_single_spaced (root : Element) :
  single_spaced false (pmc_clean_text root) = true.
Proof. apply re_sub_runs_from_single_spaced. Qed.

Lemma re_collapse_blank_from_no_triple (seen : nat) (s : string) :
  seen <= 2 ->
  no_triple_lf seen (re_collapse_blank_from seen s) = true.
Proof.
  revert seen. induction s as [|c s IH]; intros seen Hseen; [reflexivity|].
  cbn [re_collapse_blank_from]. destruct (Ascii.eqb c LF) eqn:Hc.
  - destruct (Nat.ltb seen 2) eqn:Hlt.
    + cbn [no_triple_lf]. rewrite Hc, Hlt. cbn [andb].
      apply IH. apply Nat.ltb_lt in Hlt. lia.
    + now apply IH.
  - cbn [no_triple_lf]. rewrite Hc. apply IH. lia.
Qed.

(** X7. The text that [extract_text_from_html] builds never holds three
    line feeds in a row: between two lines there is at most one blank
    line, whatever the page. *)
Theorem html_clean_text_no_triple_lf (soup : Soup) :
  no_triple_lf 0 (html_clean_text soup) = true.
Proof.
  unfold html_clean_text, re_collapse_blank.
  apply re_collapse_blank_from_no_triple. lia.
Qed.

Lemma tag_names_app (a b : Soup) :
  tag_names (a ++ b)%list = (tag_names a ++ tag_names b)%list.
Proof. unfold tag_names. now rewrite !flat_map_app. Qed.

Lemma decompose_no_removed_tag (names : list string) (n : Node) :
  forallb (fun name => negb (BS.mem name names))
          (tag_names (BS.decompose names n)) = true.
Proof.
  induction n as [s|name cl i cs IH] using Node_children_ind; [reflexivity|].
  cbn [BS.decompose]. destruct (BS.mem name names) eqn:Hname; [reflexivity|].
  unfold tag_names. cbn [flat_map BS.tags app]. rewrite app_nil_r.
  cbn [flat_map app forallb]. rewrite Hname. cbn [negb andb].
  fold (tag_names (flat_map (BS.decompose names) cs)).
  induction IH as [|c r Hc _ IHr]; [reflexivity|].
  cbn [flat_map]. rewrite tag_names_app, forallb_app, Hc. exact IHr.
Qed.

(** X8. After the removal step of [extract_text_from_html] no [script],
    [style], [nav], [header] or [footer] tag is left anywhere in the tree,
    at any depth. *)
Theorem removed_tags_are_gone (soup : Soup) :
  forallb (fun name => negb (BS.mem name removed_tags))
          (tag_names (flat_map (BS.decompose removed_tags) soup)) = true.
Proof.
  induction soup as [|n soup IH]; [reflexivity|].
  cbn [flat_map]. rewrite tag_names_app, forallb_app, IH.
  now rewrite decompose_no_removed_tag.
Qed.

(** X9. On no path, failure paths included, does an extractor return a
    text of 500 characters or fewer. *)
Theorem no_short_text_is_returned {ext : Externals} :
  (forall html t, extract_text_from_html html = Some t -> 500 < String.length t)
  /\ (forall pmc_id w t,
         fst (fetch_from_pmc pmc_id w) = Ok (Some t) -> 500 < String.length t)
  /\ (forall doi w t,
         fst (fetch_from_doi doi w) = Ok (Some t) -> 500 < String.length t)
  /\ (forall pdf_content w t,
         fst (convert_pdf_to_text pdf_content w) = Ok (Some t) ->
         500 < String.length t).
Proof.
  destruct extractors_never_return_short_text as (Hhtml & Hpmc & Hpdf).
  repeat apply conj; try assumption.
  intros [d|] w t; [|discriminate].
  unfold fetch_from_doi. destruct (truthy d); cbn [negb]; [|discriminate].
  generalize (doi_sources d). intros sources. revert w.
  induction sources as [|url rest IH]; intros w; [discriminate|].
  rewrite try_sources_step.
  destruct (session_get _ _) as [response|]; [|apply IH].
  destruct (Z.eqb _ 200); [|apply IH].
  cbn [fst]. intros [= Ht]. exact (Hhtml _ _ Ht).
Qed.

Lemma no_short_text_is_returned_witness :
  500 < String.length (html_clean_text (Sample.page 501)).
Proof.
  exact (proj1 (no_short_text_is_returned (ext := Sample.env))
               "<page n='501'>" (html_clean_text (Sample.page 501)) eq_refl).
Defined.

(* ----------------------------------------------------------------- *)
(** ** File names *)

Lemma re_delete_outside_id (keep : ascii -> bool) (s : string) :
  forallb_str keep s = true -> re_delete_outside keep s = s.
Proof.
  induction s as [|c s IH]; [reflexivity|].
  rewrite forallb_str_cons. intros [Hc Hs]%andb_prop.
  cbn [re_delete_outside]. now rewrite Hc, IH.
Qed.

Lemma re_sub_runs_from_id (cls : ascii -> bool) (rep : string)
      (in_run : bool) (s : string) :
  forallb_str (fun c => negb (cls c)) s = true ->
  re_sub_runs_from cls rep in_run s = s.
Proof.
  revert in_run. induction s as [|c s IH]; intros in_run; [reflexivity|].
  rewrite forallb_str_cons. intros [Hc Hs]%andb_prop.
  apply negb_true_iff in Hc. cbn [re_sub_runs_from]. now rewrite Hc, IH.
Qed.

Lemma slice_to_id (n : nat) (s : string) :
  String.length s <= n -> slice_to n s = s.
Proof.
  revert s. induction n as [|n IH]; intros [|c s]; cbn; try reflexivity; try lia.
  intros Hlen. rewrite IH; [reflexivity|lia].
Qed.

Lemma clean_filename_chars (text : string) :
  forallb_str sanitized_char (clean_filename text) = true.
Proof.
  unfold clean_filename. apply slice_to_forallb. unfold re_sub_runs.
  apply re_sub_runs_from_forallb; [reflexivity|].
  apply forallb_str_impl with (p := filename_char);
    [|apply re_delete_outside_forallb].
  intros c. unfold filename_char, sanitized_char.
  destruct (isspace c), (is_word c), (Ascii.eqb c hyphen); cbn; auto.
Qed.

(** X10. Sanitizing is idempotent: a fragment that [clean_filename]
    returned is left as it is by a second pass. *)
Theorem clean_filename_idempotent (text : string) :
  clean_filename (clean_filename text) = clean_filename text.
Proof.
  pose proof (clean_filename_chars text) as Hchars.
  set (t := clean_filename text) in *.
  unfold clean_filename at 1.
  rewrite re_delete_outside_id.
  - unfold re_sub_runs. rewrite re_sub_runs_from_id.
    + apply slice_to_id. apply slice_to_length.
    + revert Hchars. apply forallb_str_impl. intros c.
      unfold sanitized_char. now intros [_ H]%andb_prop.
  - revert Hchars. apply forallb_str_impl. intros c.
    unfold sanitized_char, filename_char.
    intros [H _]%andb_prop. apply orb_prop in H.
    destruct H as [-> | ->]; [reflexivity|]. now rewrite orb_true_r.
Qed.

(** X11. A sanitized fragment holds no slash, backslash, dot or NUL
    character: the title cannot move the document out of the output
    directory nor change its extension. *)
Theorem clean_filename_path_safe (text : string) :
  forallb_str (fun c => negb (path_special c)) (clean_filename text) = true.
Proof.
  generalize (clean_filename_chars text). apply forallb_str_impl.
  intros c Hc. apply negb_true_iff.
  destruct (path_special c) eqn:Hs; [|reflexivity].
  unfold path_special in Hs.
  repeat (apply orb_prop in Hs; destruct Hs as [Hs|Hs]);
    apply Ascii.eqb_eq in Hs; subst c; discriminate.
Qed.

(* ----------------------------------------------------------------- *)
(** ** More on the metadata parser *)

Lemma author_names_filter_map (l : list Element) :
  flat_map author_name l = map display_name (filter has_last_name l).
Proof.
  induction l as [|a l IH]; [reflexivity|].
  cbn [flat_map filter]. unfold author_name at 1, has_last_name at 1.
  destruct (ET.find "LastName" a) as [last_name|] eqn:Hlast; [|exact IH].
  cbn [map]. unfold display_name at 1. rewrite Hlast, IH.
  now destruct (ET.find "ForeName" a).
Qed.

(** X12. The authors of a parsed record are the author entries that have
    a last name, in document order, entries without one being skipped;
    and a kept entry has the name [None] exactly when it has no fore name
    and its last name element is empty. *)
Theorem authors_of_parsed_record (root article : Element) (m : Metadata) :
  parse_metadata_root root = Some m ->
  ET.find_desc "Article" root = Some article ->
  authors m
  = match ET.find_desc "AuthorList" article with
    | Some author_list =>
        map display_name
            (filter has_last_name (ET.findall_desc "Author" author_list))
    | None => []
    end
  /\ (forall author,
         has_last_name author = true ->
         (display_name author = None
          <-> ET.find "ForeName" author = None
              /\ option_map ET.text (ET.find "LastName" author) = Some None)).
Proof.
  unfold parse_metadata_root. intros Hm Harticle.
  rewrite Harticle in Hm. injection Hm as <-. cbn [authors]. split.
  - destruct (ET.find_desc "AuthorList" article); [|reflexivity].
    apply author_names_filter_map.
  - intros author. unfold has_last_name, display_name.
    destruct (ET.find "LastName" author) as [last_name|]; [intros _|discriminate].
    destruct (ET.find "ForeName" author) as [fore_name|]; cbn [option_map].
    + split; [discriminate|]. now intros [? _].
    + split.
      * now intros ->.
      * now intros [_ [= ->]].
Qed.

Lemma authors_of_parsed_record_witness :
  authors Sample2.mixed_authors_metadata = [Some "Marie Curie"; None]
  /\ display_name Sample2.unnamed_author = None.
Proof.
  destruct (authors_of_parsed_record Sample2.mixed_authors
              Sample2.mixed_authors_article Sample2.mixed_authors_metadata
              eq_refl eq_refl) as [Hauthors Hnone].
  split; [exact Hauthors|].
  apply (proj2 (Hnone Sample2.unnamed_author eq_refl)).
  split; reflexivity.
Defined.

(** X13. The abstract of a parsed record is the empty string exactly
    when the record has no abstract element, or that element holds no
    segment, or it holds one segment that renders as the empty string;
    two or more segments are joined with a blank line and never give the
    empty abstract. *)
Theorem abstract_empty_iff (root article : Element) (m : Metadata) :
  parse_metadata_root root = Some m ->
  ET.find_desc "Article" root = Some article ->
  (abstract m = ""
   <-> match ET.find_desc "Abstract" article with
       | None => True
       | Some abstract_elem =>
           match ET.findall_desc "AbstractText" abstract_elem with
           | [] => True
           | [segment] => abstract_part segment = ""
           | _ :: _ :: _ => False
           end
       end).
Proof.
  unfold parse_metadata_root. intros Hm Harticle.
  rewrite Harticle in Hm. injection Hm as <-. cbn [abstract].
  destruct (ET.find_desc "Abstract" article) as [abstract_elem|]; [|tauto].
  destruct (ET.findall_desc "AbstractText" abstract_elem) as [|s1 [|s2 r]];
    cbn [map]; try tauto.
  unfold join. cbn [String.concat].
  split; [|tauto].
  destruct (abstract_part s1); discriminate.
Qed.

Lemma abstract_empty_iff_witness :
  abstract Sample2.empty_title_metadata = "".
Proof.
  exact (proj2 (abstract_empty_iff Sample.empty_title Sample2.empty_title_article
                  Sample2.empty_title_metadata eq_refl eq_refl) I).
Defined.

(** X14. A field of the record whose source element is missing is the
    empty string: journal without [Journal] or without its [Title], year
    without [PubDate] or without its [Year], DOI and repository identifier
    without an identifier list or without an entry of their type. *)
Theorem missing_elements_are_empty_strings (root article : Element) (m : Metadata) :
  parse_metadata_root root = Some m ->
  ET.find_desc "Article" root = Some article ->
  (ET.find_desc "Journal" article = None -> journal m = Some "")
  /\ (forall journal_elem,
         ET.find_desc "Journal" article = Some journal_elem ->
         ET.find_desc "Title" journal_elem = None -> journal m = Some "")
  /\ (ET.find_desc "PubDate" article = None -> year m = Some "")
  /\ (forall pub_date,
         ET.find_desc "PubDate" article = Some pub_date ->
         ET.find "Year" pub_date = None -> year m = Some "")
  /\ (ET.find_desc "ArticleIdList" root = None ->
      (doi m, pmc_id m) = (Some "", Some ""))
  /\ (forall article_id_list,
         ET.find_desc "ArticleIdList" root = Some article_id_list ->
         (filter (id_type_is "doi") (ET.findall "ArticleId" article_id_list) = [] ->
          doi m = Some "")
         /\ (filter (id_type_is "pmc") (ET.findall "ArticleId" article_id_list) = [] ->
             pmc_id m = Some "")).
Proof. apply missing_elements_give_empty_strings. Qed.

Lemma missing_elements_are_empty_strings_witness :
  journal Sample.plain_metadata = Some ""
  /\ year Sample.plain_metadata = Some "".
Proof.
  destruct (missing_elements_are_empty_strings Sample.plain Sample.plain_article
              Sample.plain_metadata eq_refl eq_refl) as (Hj & _ & Hy & _).
  split; [exact (Hj eq_refl)|exact (Hy eq_refl)].
Defined.

(* ----------------------------------------------------------------- *)
(** ** More on the record serializer *)

Lemma strings_of_cases (items : list (option string)) :
  (strings_of items = Raise TypeError /\ In None items)
  \/ (exists names, strings_of items = Ok names /\ items = map Some names).
Proof.
  induction items as [|[s|] items IH].
  - right. now exists [].
  - cbn [strings_of]. destruct IH as [[-> Hin]|(names & -> & ->)].
    + left. split; [reflexivity|now right].
    + right. now exists (s :: names).
  - left. split; [reflexivity|now left].
Qed.

Lemma map_Some_no_None (names : list string) : ~ In None (map Some names).
Proof. induction names as [|s names IH]; cbn; [tauto|]. intros [H|H]; [discriminate|tauto]. Qed.

Lemma content_parts_cases (pmid : string) (m : Metadata) (full_text : option string) :
  (In None (authors m) /\ content_parts pmid m full_text = Raise TypeError)
  \/ (~ In None (authors m) /\ exists parts, content_parts pmid m full_text = Ok parts).
Proof.
  pose proof (content_parts_raises pmid m full_text) as Hparts.
  destruct (strings_of_cases (authors m)) as [[Hs Hin]|(names & Hs & Hnames)];
    rewrite Hs in Hparts.
  - left. now split.
  - right. split; [|exact Hparts]. rewrite Hnames. apply map_Some_no_None.
Qed.


(** X16. [save_article] touches one file only: every other file is as
    before, and so are the requests sent, the transient-file counter and
    the pauses. *)
Theorem save_article_frame {ext : Externals} (pmid : string) (m : Metadata)
        (full_text : option string) (w : World) :
  let w' := snd (save_article pmid m full_text w) in
  (forall q, q <> document_path pmid m ->
             FS.lookup q (files w') = FS.lookup q (files w))
  /\ requests w' = requests w
  /\ tmp_serial w' = tmp_serial w
  /\ sleeps w' = sleeps w.
Proof.
  unfold save_article, bind, lift. fold (document_path pmid m).
  destruct (content_parts pmid m full_text) as [parts|e]; cbn [snd];
    [|now repeat split].
  unfold open_and_write.
  destruct (open_error (document_path pmid m)); [now repeat split|].
  unfold write_file, ret, set_files. cbn [fst snd files requests tmp_serial sleeps].
  repeat split. intros q Hq.
  rewrite lookup_other by congruence.
  rewrite lookup_remove, path_eqb_neq by congruence. reflexivity.
Qed.

(** X17. Without a journal the year is not written: the document of a
    record whose journal is empty or [None] does not depend on its
    year. *)
Theorem year_needs_journal (pmid : string) (m : Metadata)
        (full_text y : option string) :
  truthy_opt (journal m) = false ->
  content_parts pmid (with_year y m) full_text = content_parts pmid m full_text.
Proof.
  intros Hjournal. unfold content_parts, with_year.
  cbn [title abstract authors journal year doi pmc_id].
  now rewrite Hjournal.
Qed.

Lemma year_needs_journal_witness :
  content_parts "2" (with_year (Some "1903") Sample.plain_metadata) None
  = content_parts "2" Sample.plain_metadata None.
Proof.
  exact (year_needs_journal "2" Sample.plain_metadata None (Some "1903") eq_refl).
Defined.

(* ----------------------------------------------------------------- *)
(** ** What a computation leaves untouched *)

Module Frame.

Section Generic.
Context {X : Type} (f : World -> X).

Lemma ret_preserves {A} (a : A) : preserves f (ret a).
Proof. now intros w. Qed.

Lemma raise_preserves {A} (e : exn) : preserves f (@raise A e).
Proof. now intros w. Qed.

Lemma lift_preserves {A} (r : Res A) : preserves f (lift r).
Proof. now intros w. Qed.

Lemma bind_preserves {A B} (c : M A) (k : A -> M B) :
  preserves f c -> (forall a, preserves f (k a)) -> preserves f (bind c k).
Proof.
  intros Hc Hk w. unfold bind. specialize (Hc w).
  destruct (c w) as [[a|e] w1]; cbn [snd] in *; [|exact Hc].
  now rewrite (Hk a w1).
Qed.

Lemma try_except_preserves {A} (c : M A) (h : exn -> M A) :
  preserves f c -> (forall e, preserves f (h e)) -> preserves f (try_except c h).
Proof.
  intros Hc Hh w. unfold try_except. specialize (Hc w).
  destruct (c w) as [[a|e] w1]; cbn [snd] in *; [exact Hc|].
  now rewrite (Hh e w1).
Qed.

Lemma if_preserves {A} (b : bool) (c d : M A) :
  preserves f c -> preserves f d -> preserves f (if b then c else d).
Proof. now destruct b. Qed.

Lemma raise_for_status_preserves (r : Response) : preserves f (raise_for_status r).
Proof. unfold raise_for_status. apply if_preserves; [apply raise_preserves|apply ret_preserves]. Qed.

End Generic.

Lemma files_offline : offline files.
Proof. now intros reqs w. Qed.
Lemma tmp_serial_offline : offline tmp_serial.
Proof. now intros reqs w. Qed.
Lemma sleeps_offline : offline sleeps.
Proof. now intros reqs w. Qed.
Lemma requests_diskless : diskless requests.
Proof. now intros fs w. Qed.
Lemma tmp_serial_diskless : diskless tmp_serial.
Proof. now intros fs w. Qed.
Lemma sleeps_diskless : diskless sleeps.
Proof. now intros fs w. Qed.

Section Network.
Context {ext : Externals} {X : Type} (f : World -> X) (Hf : offline f).

Lemma http_get_preserves (req : Request) : preserves f (http_get req).
Proof.
  intros w. unfold http_get. fold (sent [req] w).
  destruct (session_get _ _); cbn [snd]; apply Hf.
Qed.

Lemma fetch_article_metadata_preserves (pmid : string) :
  preserves f (fetch_article_metadata pmid).
Proof.
  unfold fetch_article_metadata.
  apply try_except_preserves; [|intros; apply ret_preserves].
  apply bind_preserves; [apply http_get_preserves|intros r].
  apply bind_preserves; [apply raise_for_status_preserves|intros _].
  apply ret_preserves.
Qed.

Lemma fetch_from_pmc_preserves (pmc_id : option string) :
  preserves f (fetch_from_pmc pmc_id).
Proof.
  unfold fetch_from_pmc. destruct pmc_id as [id|]; [|apply ret_preserves].
  apply if_preserves; [apply ret_preserves|].
  apply try_except_preserves; [|intros; apply ret_preserves].
  apply bind_preserves; [apply http_get_preserves|intros r].
  apply bind_preserves; [apply raise_for_status_preserves|intros _].
  apply bind_preserves; [apply lift_preserves|intros root].
  apply ret_preserves.
Qed.

Lemma try_sources_preserves (sources : list string) :
  preserves f (try_sources sources).
Proof.
  induction sources as [|url rest IH]; [apply ret_preserves|].
  cbn [try_sources]. apply bind_preserves.
  - apply try_except_preserves; [|intros; apply ret_preserves].
    apply bind_preserves; [apply http_get_preserves|intros r].
    apply if_preserves; apply ret_preserves.
  - intros [result|]; [apply ret_preserves|exact IH].
Qed.

Lemma fetch_from_doi_preserves (doi : option string) :
  preserves f (fetch_from_doi doi).
Proof.
  unfold fetch_from_doi. destruct doi as [d|]; [|apply ret_preserves].
  apply if_preserves; [apply ret_preserves|apply try_sources_preserves].
Qed.

End Network.

Section Disk.
Context {ext : Externals} {X : Type} (f : World -> X) (Hf : diskless f).

Lemma write_file_preserves (p : path) (content : string) :
  preserves f (write_file p content).
Proof. intros w. unfold write_file. cbn [snd]. apply Hf. Qed.

Lemma open_and_write_preserves (p : path) (content : string) :
  preserves f (open_and_write p content).
Proof.
  intros w. unfold open_and_write.
  destruct (open_error p); [reflexivity|apply write_file_preserves].
Qed.

Lemma save_article_preserves (pmid : string) (m : Metadata) (full_text : option string) :
  preserves f (save_article pmid m full_text).
Proof.
  unfold save_article.
  apply bind_preserves; [apply lift_preserves|intros parts].
  apply bind_preserves; [apply open_and_write_preserves|intros _].
  apply ret_preserves.
Qed.

End Disk.

Section Pipeline.
Context {ext : Externals} {X : Type} (f : World -> X)
        (Hnet : offline f) (Hdisk : diskless f).

Lemma process_pmid_preserves (pmid : string) : preserves f (process_pmid pmid).
Proof.
  unfold process_pmid.
  apply bind_preserves; [now apply fetch_article_metadata_preserves|].
  intros [xml|]; [|apply ret_preserves].
  apply if_preserves; [apply ret_preserves|].
  destruct (parse_metadata xml) as [m|]; [|apply ret_preserves].
  apply bind_preserves.
  { apply if_preserves; [now apply fetch_from_pmc_preserves|apply ret_preserves]. }
  intros t1. apply bind_preserves.
  { apply if_preserves; [now apply fetch_from_doi_preserves|apply ret_preserves]. }
  intros t2. apply bind_preserves; [now apply save_article_preserves|intros _].
  apply ret_preserves.
Qed.


End Pipeline.

End Frame.

(* ----------------------------------------------------------------- *)
(** ** More on the orchestrator *)

Section OrchestratorPaths.
Context {ext : Externals}.

Lemma fetch_article_metadata_sent (pmid : string) (w : World) :
  snd (fetch_article_metadata pmid w) = sent [metadata_request pmid] w.
Proof.
  unfold fetch_article_metadata, try_except, bind, http_get, raise_for_status,
    ret, raise.
  fold (metadata_request pmid). fold (sent [metadata_request pmid] w).
  destruct (session_get _ _) as [response|]; [|reflexivity].
  now destruct (Z.leb 400 _ && Z.ltb _ 600)%bool.
Qed.

Lemma fetch_from_pmc_sent (id : string) (w : World) :
  truthy id = true ->
  snd (fetch_from_pmc (Some id) w) = sent [pmc_request id] w.
Proof.
  intros Hid. unfold fetch_from_pmc. rewrite Hid. cbn [negb].
  unfold try_except, bind, http_get, raise_for_status, lift, ret, raise.
  fold (pmc_request id). fold (sent [pmc_request id] w).
  destruct (session_get _ _) as [response|]; [|reflexivity].
  destruct (Z.leb 400 _ && Z.ltb _ 600)%bool; [reflexivity|].
  now destruct (fromstring _).
Qed.

(** With metadata, [process_pmid] is the fallback chain followed by the
    save, run after the metadata request. *)
Lemma process_pmid_with_metadata (pmid : string) (w : World) (m : Metadata) :
  metadata_of pmid w = Some m ->
  process_pmid pmid w
  = (full_text <- (if truthy_opt (pmc_id m)
                   then fetch_from_pmc (pmc_id m) else ret None) ;;
     full_text <- (if negb (truthy_opt full_text) && truthy_opt (doi m)
                   then fetch_from_doi (doi m) else ret full_text) ;;
     save_article pmid m full_text ;;;
     ret true) (sent [metadata_request pmid] w).
Proof.
  unfold metadata_of, process_pmid. unfold bind at 1.
  pose proof (fetch_article_metadata_sent pmid w) as Hsent.
  destruct (fetch_article_metadata pmid w) as [r w1]. cbn [fst snd] in *. subst w1.
  destruct r as [[xml|]|e]; try discriminate.
  destruct (truthy xml); [|discriminate]. cbn [negb].
  now intros ->.
Qed.

(** The save at the end of the chain, for a record whose author names
    are strings and whose file can be opened. *)
Lemma save_and_return (pmid : string) (m : Metadata) (full_text : option string)
      (w : World) :
  ~ In None (authors m) ->
  open_error (document_path pmid m) = None ->
  exists parts,
    content_parts pmid m full_text = Ok parts
    /\ (save_article pmid m full_text ;;; ret true) w
       = (Ok true,
          set_files ((document_path pmid m, join (nl ++ nl) parts)
                       :: FS.remove (document_path pmid m) (files w)) w).
Proof.
  intros Hnames Hopen.
  destruct (content_parts_cases pmid m full_text) as [[Hin _]|[_ (parts & Hparts)]];
    [contradiction|].
  exists parts. split; [exact Hparts|].
  unfold save_article, bind, lift. fold (document_path pmid m).
  rewrite Hparts. unfold open_and_write. now rewrite Hopen.
Qed.

End OrchestratorPaths.

(** X18. [process_pmid] returns [False] exactly when it has no metadata:
    the metadata request raised or had an error status, the body was
    empty, or the body did not parse to a record with an article.  It has
    then sent the metadata request and nothing else, and has written
    nothing. *)
Theorem process_pmid_false_iff {ext : Externals} (pmid : string) (w : World) :
  (fst (process_pmid pmid w) = Ok false <-> metadata_of pmid w = None)
  /\ (metadata_of pmid w = None ->
      snd (process_pmid pmid w) = sent [metadata_request pmid] w).
Proof.
  pose proof (process_pmid_outcome pmid w) as Hout.
  destruct (metadata_of pmid w) as [m|].
  - split; [|discriminate]. split; [|discriminate].
    rewrite Hout.
    destruct (strings_of (authors m)); [|discriminate].
    destruct (open_error (document_path pmid m)); discriminate.
  - rewrite Hout, fetch_article_metadata_sent. now repeat split.
Qed.

(** X19. When the repository extractor returns a text, the DOI is not
    tried: for a record whose author names are strings and whose file
    can be opened, [process_pmid] sends the metadata request and the
    repository request and no other, returns [True], and the document
    holds the parts built with that text. *)
Theorem repository_text_short_circuits {ext : Externals}
        (pmid : string) (w : World) (m : Metadata) (t : string) :
  metadata_of pmid w = Some m ->
  fst (fetch_from_pmc (pmc_id m) (sent [metadata_request pmid] w)) = Ok (Some t) ->
  ~ In None (authors m) ->
  open_error (document_path pmid m) = None ->
  exists id parts,
    pmc_id m = Some id
    /\ content_parts pmid m (Some t) = Ok parts
    /\ fst (process_pmid pmid w) = Ok true
    /\ requests (snd (process_pmid pmid w))
       = (requests w ++ [metadata_request pmid; pmc_request id])%list
    /\ FS.lookup (document_path pmid m) (files (snd (process_pmid pmid w)))
       = Some (join (nl ++ nl) parts).
Proof.
  intros Hm Hpmc Hnames Hopen.
  set (w1 := sent [metadata_request pmid] w) in *.
  assert (Hlong : 500 < String.length t).
  { destruct extractors_never_return_short_text as (_ & H & _). exact (H _ _ _ Hpmc). }
  assert (Ht : truthy t = true) by (destruct t; [cbn in Hlong; lia|reflexivity]).
  destruct (pmc_id m) as [id|] eqn:Hid; [|discriminate].
  destruct (truthy id) eqn:Htruthy;
    [|unfold fetch_from_pmc in Hpmc; rewrite Htruthy in Hpmc; discriminate].
  destruct (save_and_return pmid m (Some t) (sent [pmc_request id] w1) Hnames Hopen)
    as (parts & Hparts & Hsave).
  assert (Hrun : process_pmid pmid w
                 = (Ok true,
                    set_files ((document_path pmid m, join (nl ++ nl) parts)
                                 :: FS.remove (document_path pmid m) (files w))
                              (sent [pmc_request id] w1))).
  { rewrite (process_pmid_with_metadata pmid w m Hm). fold w1.
    rewrite Hid. cbn [truthy_opt]. rewrite Htruthy.
    unfold bind at 1.
    pose proof (fetch_from_pmc_sent id w1 Htruthy) as Hworld.
    destruct (fetch_from_pmc (Some id) w1) as [r w2]. cbn [fst snd] in *.
    subst w2 r.
    cbn [truthy_opt]. rewrite Ht. cbn [negb andb]. unfold bind at 1, ret at 1.
    exact Hsave. }
  exists id, parts. rewrite Hrun. cbn [fst snd].
  repeat split; try assumption.
  - unfold w1. cbn [set_files sent requests]. now rewrite <- app_assoc.
  - cbn [set_files files]. apply lookup_head.
Qed.

Lemma repository_text_short_circuits_witness :
  exists id parts,
    pmc_id Sample2.with_repository_metadata = Some id
    /\ content_parts "7" Sample2.with_repository_metadata
                     (Some (pmc_clean_text (Sample.full_text_record 484)))
       = Ok parts
    /\ fst (process_pmid (ext := Sample2.env) "7" Sample.w0) = Ok true
    /\ requests (snd (process_pmid (ext := Sample2.env) "7" Sample.w0))
       = (requests Sample.w0 ++ [metadata_request "7"; pmc_request id])%list
    /\ FS.lookup (document_path "7" Sample2.with_repository_metadata)
                 (files (snd (process_pmid (ext := Sample2.env) "7" Sample.w0)))
       = Some (join (nl ++ nl) parts).
Proof.
  assert (Hnames : ~ In None (authors Sample2.with_repository_metadata)).
  { intros [H|[]]. discriminate. }
  exact (repository_text_short_circuits (ext := Sample2.env) "7" Sample.w0
           Sample2.with_repository_metadata
           (pmc_clean_text (Sample.full_text_record 484))
           eq_refl eq_refl Hnames eq_refl).
Defined.

(** X20. A record with neither repository identifier nor DOI is saved
    from its metadata alone: for author names that are strings and a
    file that can be opened, [process_pmid] sends the metadata request
    and no other, returns [True], and the document holds the parts built
    without full text. *)
Theorem metadata_only_is_saved {ext : Externals}
        (pmid : string) (w : World) (m : Metadata) :
  metadata_of pmid w = Some m ->
  truthy_opt (pmc_id m) = false ->
  truthy_opt (doi m) = false ->
  ~ In None (authors m) ->
  open_error (document_path pmid m) = None ->
  exists parts,
    content_parts pmid m None = Ok parts
    /\ fst (process_pmid pmid w) = Ok true
    /\ requests (snd (process_pmid pmid w))
       = (requests w ++ [metadata_request pmid])%list
    /\ FS.lookup (document_path pmid m) (files (snd (process_pmid pmid w)))
       = Some (join (nl ++ nl) parts).
Proof.
  intros Hm Hpmc Hdoi Hnames Hopen.
  destruct (save_and_return pmid m None (sent [metadata_request pmid] w) Hnames Hopen)
    as (parts & Hparts & Hsave).
  assert (Hrun : process_pmid pmid w
                 = (Ok true,
                    set_files ((document_path pmid m, join (nl ++ nl) parts)
                                 :: FS.remove (document_path pmid m) (files w))
                              (sent [metadata_request pmid] w))).
  { rewrite (process_pmid_with_metadata pmid w m Hm).
    rewrite Hpmc, Hdoi. cbn [truthy_opt negb andb].
    unfold bind at 1, ret at 1. unfold bind at 1, ret at 1. exact Hsave. }
  exists parts. rewrite Hrun. cbn [fst snd set_files sent requests files].
  repeat split; [assumption|apply lookup_head].
Qed.

Lemma metadata_only_is_saved_witness :
  exists parts,
    content_parts "2" Sample.plain_metadata None = Ok parts
    /\ fst (process_pmid (ext := Sample.env) "2" Sample.w0) = Ok true
    /\ requests (snd (process_pmid (ext := Sample.env) "2" Sample.w0))
       = (requests Sample.w0 ++ [metadata_request "2"])%list
    /\ FS.lookup (document_path "2" Sample.plain_metadata)
                 (files (snd (process_pmid (ext := Sample.env) "2" Sample.w0)))
       = Some (join (nl ++ nl) parts).
Proof.
  assert (Hnames : ~ In None (authors Sample.plain_metadata)) by (intros []).
  exact (metadata_only_is_saved (ext := Sample.env) "2" Sample.w0
           Sample.plain_metadata eq_refl eq_refl eq_refl Hnames eq_refl).
Defined.

(** X21. Requests never touch the file store: the metadata fetch and the
    two network extractors leave every file as it was; and [process_pmid]
    creates no transient file and never pauses. *)
Theorem network_calls_leave_files {ext : Externals} :
  (forall pmid, preserves files (fetch_article_metadata pmid))
  /\ (forall pmc_id, preserves files (fetch_from_pmc pmc_id))
  /\ (forall doi, preserves files (fetch_from_doi doi))
  /\ (forall pmid, preserves tmp_serial (process_pmid pmid))
  /\ (forall pmid, preserves sleeps (process_pmid pmid)).
Proof.
  repeat apply conj; intros x.
  - apply Frame.fetch_article_metadata_preserves, Frame.files_offline.
  - apply Frame.fetch_from_pmc_preserves, Frame.files_offline.
  - apply Frame.fetch_from_doi_preserves, Frame.files_offline.
  - apply Frame.process_pmid_preserves;
      [apply Frame.tmp_serial_offline|apply Frame.tmp_serial_diskless].
  - apply Frame.process_pmid_preserves;
      [apply Frame.sleeps_offline|apply Frame.sleeps_diskless].
Qed.

(* ----------------------------------------------------------------- *)
(** ** More on the batch driver *)

Section BatchPaths.
Context {ext : Externals}.


End BatchPaths.



(** X23. A file with blank lines only gives the tally 0 / 0 / 0 and
    leaves the world as it was, whatever the delay: no request, no file,
    no pause. *)
Theorem blank_file_does_nothing {ext : Externals}
        (lines : list string) (delay : Delay) (w : World) :
  forallb (fun line => negb (nonblank line)) lines = true ->
  process_pmid_list lines delay w
  = (Ok {| total := 0; success_count := 0; fail_count := 0 |}, w).
Proof.
  intros Hblank.
  assert (Hnone : filter nonblank lines = []).
  { induction lines as [|line lines IH]; [reflexivity|].
    cbn [forallb] in Hblank. apply andb_prop in Hblank as [Hline Hrest].
    apply negb_true_iff in Hline. cbn [filter]. rewrite Hline. now apply IH. }
  unfold process_pmid_list. fold nonblank. now rewrite Hnone.
Qed.

Lemma blank_file_does_nothing_witness :
  process_pmid_list (ext := Sample.env) [nl; "   " ++ nl; ""] NotANumber Sample.w0
  = (Ok {| total := 0; success_count := 0; fail_count := 0 |}, Sample.w0).
Proof.
  exact (blank_file_does_nothing (ext := Sample.env) [nl; "   " ++ nl; ""]
           NotANumber Sample.w0 eq_refl).
Defined.

(* ----------------------------------------------------------------- *)
(** ** More on the binary-document converter *)

(** X24. [convert_pdf_to_text] never raises, and on every path it leaves
    every file other than its two transient files as it was. *)
Theorem convert_pdf_to_text_frame {ext : Externals} (pdf_content : string) (w : World) :
  (exists r, fst (convert_pdf_to_text pdf_content w) = Ok r)
  /\ (forall q, q <> tmp_pdf w -> q <> tmp_txt w ->
                FS.lookup q (files (snd (convert_pdf_to_text pdf_content w)))
                = FS.lookup q (files w)).
Proof.
  pose proof (convert_pdf_to_text_run pdf_content w) as Hrun. cbn zeta in Hrun.
  assert (Hstaged : forall q, q <> tmp_pdf w -> q <> tmp_txt w ->
                              FS.lookup q (staged pdf_content w) = FS.lookup q (files w)).
  { intros q Hpdf Htxt. unfold staged.
    rewrite !lookup_other by congruence.
    rewrite lookup_remove, path_eqb_neq by congruence.
    now rewrite lookup_other by congruence. }
  destruct (pdftotext pdf_content) as [rc out|].
  - destruct (Z.eqb rc 0); destruct Hrun as [Hres Hfiles]; rewrite Hres, Hfiles;
      (split; [eauto|]); intros q Hpdf Htxt.
    + rewrite !lookup_remove, !path_eqb_neq by congruence.
      rewrite lookup_other by congruence.
      rewrite lookup_remove, path_eqb_neq by congruence. now apply Hstaged.
    + rewrite lookup_other by congruence.
      rewrite lookup_remove, path_eqb_neq by congruence. now apply Hstaged.
  - destruct Hrun as [Hres Hfiles]. rewrite Hres, Hfiles. split; [eauto|].
    exact Hstaged.
Qed.

(** X25. When the tool exits with code 0, neither transient file is left
    on disk and the result is the tool's output if it is longer than 500
    characters, the absent result otherwise. *)
Theorem transient_files_removed_on_success {ext : Externals}
        (pdf_content out : string) (w : World) :
  pdftotext pdf_content = Exited 0 out ->
  fst (convert_pdf_to_text pdf_content w)
  = Ok (if Nat.ltb 500 (String.length out) then Some out else None)
  /\ FS.exists_ (tmp_pdf w) (files (snd (convert_pdf_to_text pdf_content w))) = false
  /\ FS.exists_ (tmp_txt w) (files (snd (convert_pdf_to_text pdf_content w))) = false.
Proof.
  intros Htool. split.
  - pose proof (convert_pdf_to_text_run pdf_content w) as Hrun. cbn zeta in Hrun.
    rewrite Htool in Hrun. cbn [Z.eqb] in Hrun. now destruct Hrun.
  - exact (convert_pdf_to_text_cleans_up_on_success pdf_content out w Htool).
Qed.

Lemma transient_files_removed_on_success_witness :
  fst (convert_pdf_to_text (ext := Sample.env) "%PDF 501" Sample2.w1)
  = Ok (Some (str_mul "a" 501))
  /\ FS.exists_ (tmp_pdf Sample2.w1)
       (files (snd (convert_pdf_to_text (ext := Sample.env) "%PDF 501" Sample2.w1)))
     = false
  /\ FS.exists_ (tmp_txt Sample2.w1)
       (files (snd (convert_pdf_to_text (ext := Sample.env) "%PDF 501" Sample2.w1)))
     = false.
Proof.
  exact (transient_files_removed_on_success (ext := Sample.env) "%PDF 501"
           (str_mul "a" 501) Sample2.w1 eq_refl).
Defined.

(* ----------------------------------------------------------------- *)
(** ** More on the structured-repository extractor *)

(** X26. [fetch_from_pmc] returns a text exactly when the identifier is
    not empty, the request is answered with a status outside 400..599, the
    body parses, and the cleaned text is longer than 500 characters; the
    text returned is that cleaned text.  A raised request, an error status
    and a body that does not parse all give [None]. *)
Theorem fetch_from_pmc_success_iff {ext : Externals}
        (id t : string) (w : World) :
  fst (fetch_from_pmc (Some id) w) = Ok (Some t)
  <-> truthy id = true
      /\ exists response root,
           session_get (requests w) (pmc_request id) = Some response
           /\ status_ok response
           /\ fromstring (resp_text response) = Some root
           /\ t = pmc_clean_text root
           /\ 500 < String.length t.
Proof.
  unfold fetch_from_pmc.
  destruct (truthy id); cbn [negb];
    [|split; [discriminate|now intros [? _]]].
  unfold try_except, bind, http_get, raise_for_status, lift, ret, raise.
  fold (pmc_request id).
  destruct (session_get (requests w) (pmc_request id)) as [response|];
    [|split; [discriminate|now intros (_ & r & root & Hr & _)]].
  destruct (Z.leb 400 (status_code response) && Z.ltb (status_code response) 600)%bool
    eqn:Hstatus.
  - split; [discriminate|]. intros (_ & r & root & [= <-] & Hok & _).
    now rewrite (status_ok_passes _ Hok) in Hstatus.
  - assert (Hok : status_ok response).
    { unfold status_ok. apply andb_false_iff in Hstatus.
      destruct Hstatus as [H|H]; [left; now apply Z.leb_gt|right; now apply Z.ltb_ge]. }
    destruct (fromstring (resp_text response)) as [root|] eqn:Hroot; cbn [fst].
    + split.
      * intros [= Ht]. split; [reflexivity|]. exists response, root.
        repeat split; try assumption.
        -- destruct (Nat.ltb 500 _); [now injection Ht as <-|discriminate].
        -- exact (threshold_long _ _ Ht).
      * intros (_ & r & root' & [= <-] & _ & Hroot' & -> & Hlong).
        rewrite Hroot in Hroot'. injection Hroot' as <-.
        apply Nat.ltb_lt in Hlong. now rewrite Hlong.
    + split; [discriminate|].
      intros (_ & r & root' & [= <-] & _ & Hroot' & _).
      rewrite Hroot in Hroot'. discriminate.
Qed.

(* ----------------------------------------------------------------- *)
(** ** The properties above on the sample world *)

Lemma fetch_article_metadata_result_witness :
  fst (fetch_article_metadata (ext := Sample.env) "2" Sample.w0) = Ok (Some "<plain/>").
Proof.
  apply (proj2 (proj2 (fetch_article_metadata_result (ext := Sample.env) "2" Sample.w0))).
  exists (mkResponse 200 "<plain/>"). repeat split. left. reflexivity.
Defined.


Lemma save_article_frame_witness :
  FS.lookup (OutFile "PMID_0_Old.txt")
            (files (snd (save_article (ext := Sample.env) "2" Sample.plain_metadata
                           None Sample2.w1)))
  = FS.lookup (OutFile "PMID_0_Old.txt") (files Sample2.w1).
Proof.
  apply (proj1 (save_article_frame (ext := Sample.env) "2" Sample.plain_metadata
                  None Sample2.w1)).
  discriminate.
Defined.

Lemma process_pmid_false_iff_witness :
  fst (process_pmid (ext := Sample.env) "3" Sample.w0) = Ok false.
Proof.
  apply (proj1 (process_pmid_false_iff (ext := Sample.env) "3" Sample.w0)).
  reflexivity.
Defined.

Lemma convert_pdf_to_text_frame_witness :
  FS.lookup (OutFile "PMID_0_Old.txt")
            (files (snd (convert_pdf_to_text (ext := Sample.env) "not a PDF" Sample2.w1)))
  = FS.lookup (OutFile "PMID_0_Old.txt") (files Sample2.w1).
Proof.
  apply (proj2 (convert_pdf_to_text_frame (ext := Sample.env) "not a PDF" Sample2.w1));
    discriminate.
Defined.

Lemma fetch_from_pmc_success_iff_witness :
  fst (fetch_from_pmc (ext := Sample.env) (Some "PMC501") Sample.w0)
  = Ok (Some (pmc_clean_text (Sample.full_text_record 484))).
Proof.
  apply (proj2 (fetch_from_pmc_success_iff (ext := Sample.env) "PMC501"
                  (pmc_clean_text (Sample.full_text_record 484)) Sample.w0)).
  split; [reflexivity|].
  exists (mkResponse 200 "<full_text pad='484'/>"), (Sample.full_text_record 484).
  repeat split; [left; reflexivity|vm_compute; lia].
Defined.
